(** * ECCClient of apidhcs-sdk (src/src/crypto/types.ts), shallow embedding

    The client holds a long-term ECDH key pair and an optional cached server
    key.  [encrypt] builds a seven-field, colon-separated, base64-wrapped
    envelope, [decrypt] checks and opens one, [getServerPublicKey] performs
    the key handshake and [makeRequest] orchestrates a request.

    Modelling choices:
    - Node's [Buffer] contents and JS strings are both [string]: every
      envelope component is ASCII, where bytes and text coincide.
    - Node's [crypto] module, base64/hex codecs, [JSON.parse]/[JSON.stringify],
      [new URL] and [encodeURIComponent] are builtins, kept abstract in the
      record [prims]; properties of them that a theorem needs are explicit
      hypotheses ([prims_laws] or facts about one concrete value).
    - JS numbers read from the wire ([parseInt], [Date.now]) are integers [Z];
      [None] stands for [NaN].
    - Effects ([Date.now], random generation, [fetch], mutation of [this],
      crypto calls) are threaded through the world of a state/error monad
      which also keeps a trace of the observable operations. *)

From Stdlib Require Import String Ascii List ZArith Bool Lia.
Import ListNotations.
Open Scope string_scope.

(** ** Strings *)

Definition colon : ascii := ":"%char.

(** [s.split(":")]: JS semantics, [""] splits into [[""]]. *)
Fixpoint split_colon (s : string) : list string :=
  match s with
  | EmptyString => [""]
  | String c s' =>
      let parts := split_colon s' in
      if Ascii.eqb c colon then "" :: parts
      else match parts with
           | p :: ps => String c p :: ps
           | [] => [String c ""]
           end
  end.

Fixpoint has_colon (s : string) : bool :=
  match s with
  | EmptyString => false
  | String c s' => Ascii.eqb c colon || has_colon s'
  end.

Definition digit_char (n : nat) : ascii := ascii_of_nat (48 + n).

(** Decimal digits of a natural number; [fuel] bounds the recursion. *)
Fixpoint digits_of (fuel : nat) (n : N) : string :=
  match fuel with
  | O => EmptyString
  | S f =>
      if (n <? 10)%N then String (digit_char (N.to_nat n)) EmptyString
      else digits_of f (n / 10)%N ++ String (digit_char (N.to_nat (n mod 10))) EmptyString
  end.

Definition N_to_dec (n : N) : string := digits_of (S (N.size_nat n)) n.

(** [String(z)] / [z.toString()] for an integral number. *)
Definition Z_to_dec (z : Z) : string :=
  if (z <? 0)%Z then "-" ++ N_to_dec (Z.to_N (- z)) else N_to_dec (Z.to_N z).

Definition nat_to_dec (n : nat) : string := N_to_dec (N.of_nat n).

Definition digit_val (c : ascii) : option Z :=
  let n := nat_of_ascii c in
  if (48 <=? n)%nat && (n <=? 57)%nat then Some (Z.of_nat (n - 48)) else None.

(** Value of the longest digit prefix of [s], accumulated onto [acc];
    [None] when [s] does not start with a digit. *)
Fixpoint scan_digits (acc : Z) (s : string) : Z :=
  match s with
  | EmptyString => acc
  | String c s' =>
      match digit_val c with
      | Some d => scan_digits (acc * 10 + d)%Z s'
      | None => acc
      end
  end.

Definition starts_with_digit (s : string) : bool :=
  match s with
  | String c _ => match digit_val c with Some _ => true | None => false end
  | EmptyString => false
  end.

Definition is_js_space (c : ascii) : bool :=
  let n := nat_of_ascii c in
  (n =? 32)%nat || ((9 <=? n)%nat && (n <=? 13)%nat).

Fixpoint trim_start (s : string) : string :=
  match s with
  | String c s' => if is_js_space c then trim_start s' else s
  | EmptyString => EmptyString
  end.

(** [parseInt(s, 10)]: leading (ASCII) white space, an optional sign, then
    the longest decimal digit prefix; [None] is [NaN]. *)
Definition parse_int10 (s : string) : option Z :=
  let s := trim_start s in
  let '(sign, rest) :=
    match s with
    | String "-"%char r => ((-1)%Z, r)
    | String "+"%char r => (1%Z, r)
    | _ => (1%Z, s)
    end in
  if starts_with_digit rest then Some (sign * scan_digits 0 rest)%Z else None.

(** ** JSON values *)

Local Set Warnings "-register-all".

(** JSON data as [JSON.parse] produces it; numbers are integral. Objects keep
    their keys in insertion order. *)
Inductive json : Type :=
| JNull
| JBool (b : bool)
| JNum (z : Z)
| JStr (s : string)
| JArr (l : list json)
| JObj (fs : list (string * json)).

Fixpoint obj_lookup (fs : list (string * json)) (k : string) : option json :=
  match fs with
  | [] => None
  | (k', v) :: fs' => if String.eqb k k' then Some v else obj_lookup fs' k
  end.

(** [{...o, k: v}] / [o[k] = v]: an existing key keeps its position, a new
    key is appended. *)
Fixpoint obj_set (fs : list (string * json)) (k : string) (v : json)
  : list (string * json) :=
  match fs with
  | [] => [(k, v)]
  | (k', v') :: fs' =>
      if String.eqb k k' then (k, v) :: fs' else (k', v') :: obj_set fs' k v
  end.

(** JS truthiness of a JSON value. *)
Definition truthy (v : json) : bool :=
  match v with
  | JNull => false
  | JBool b => b
  | JNum z => negb (Z.eqb z 0)
  | JStr s => negb (String.eqb s "")
  | JArr _ | JObj _ => true
  end.

(** ** Errors *)

Inductive err : Type :=
| EMissingKey                    (* 'server public key not provided' *)
| EFormat (n : nat)              (* `invalid format: ${n} parts` *)
| ERange                         (* RangeError: Invalid time value *)
| EExpired                       (* 'data expired' *)
| EHmac                          (* 'invalid hmac' *)
| ECrypto                        (* thrown by node:crypto (bad key, GCM tag) *)
| EHttp (status : Z) (body : string) (* `error ${status}: ${text}` *)
| EMissingPub                    (* 'response missing public key' *)
| ENoServerKey                   (* 'could not obtain server public key' *)
| ETypeError                     (* property read on null, bad argument *)
| ESyntax                        (* JSON.parse / response.json() failure *)
| EUrl.                          (* new URL(endpoint) failure *)

Definition err_message (e : err) : string :=
  match e with
  | EMissingKey => "server public key not provided"
  | EFormat n => "invalid format: " ++ nat_to_dec n ++ " parts"
  | ERange => "Invalid time value"
  | EExpired => "data expired"
  | EHmac => "invalid hmac"
  | ECrypto => "crypto error"
  | EHttp st body => "error " ++ Z_to_dec st ++ ": " ++ body
  | EMissingPub => "response missing public key"
  | ENoServerKey => "could not obtain server public key"
  | ETypeError => "TypeError"
  | ESyntax => "SyntaxError"
  | EUrl => "Invalid URL"
  end.

(** ** Builtins of the runtime *)

(** The builtins the client calls.  Keys are hex strings as [getPrivateKey('hex')]
    and [getPublicKey('hex')] return them. *)
Record prims : Type := {
  (** [createECDH(curve)] + [setPrivateKey] + [getPublicKey('hex')] *)
  ecdh_pub : string -> string -> string;
  (** [createECDH(curve)] + [setPrivateKey(priv)] +
      [computeSecret(Buffer.from(pub, 'hex'))]; [None]: it throws *)
  ecdh_secret : string -> string -> string -> option string;
  (** the keys [createECDH(curve).generateKeys()] can produce *)
  key_ok : string -> string -> bool;
  (** [createHash('sha256').update(x).digest()] *)
  sha256 : string -> string;
  (** [buf.toString('hex')] / [digest('hex')] *)
  hex : string -> string;
  (** [createHmac('sha256', key).update(x).digest()] *)
  hmac_sha256 : string -> string -> string;
  (** [buf.toString('base64')] *)
  b64enc : string -> string;
  (** [Buffer.from(s, 'base64')] (and [.toString()] of it) *)
  b64dec : string -> string;
  (** [Buffer.from(v, 'base64').toString()] for a value that is not a string;
      [None]: it throws *)
  buffer_of_value : json -> option string;
  (** AES-256-GCM: [createCipheriv] + [update]/[final] + [getAuthTag] *)
  gcm_seal : string -> string -> string -> string * string;
  (** [createDecipheriv] + [setAuthTag] + [update]/[final]; [None]: it throws *)
  gcm_open : string -> string -> string -> string -> option string;
  json_stringify : json -> string;
  (** [JSON.parse]; [None]: SyntaxError *)
  json_parse : string -> option json;
  (** [new URL(u)] then [`${protocol}//${host}`]; [None]: TypeError *)
  url_origin : string -> option string;
  encode_uri_component : string -> string;
  (** [Buffer.from(v, 'hex')] for a value [v] that is not a string, as the
      hex text of its bytes; [None]: it throws a TypeError *)
  buffer_hex : json -> option string;
  (** the curve names [crypto.createECDH] accepts; it throws for others *)
  curve_ok : string -> bool
}.

(** What the round trip needs of the builtins.  Base64 and hex text never
    contains a colon; base64 decoding inverts encoding; two valid key pairs
    agree on their ECDH secret; GCM opening inverts sealing. *)
Record prims_laws (P : prims) : Prop := {
  b64_roundtrip : forall s, b64dec P (b64enc P s) = s;
  b64_no_colon : forall s, has_colon (b64enc P s) = false;
  hex_no_colon : forall s, has_colon (hex P s) = false;
  pub_no_colon : forall cv k, has_colon (ecdh_pub P cv k) = false;
  ecdh_agree : forall cv a b, key_ok P cv a = true -> key_ok P cv b = true ->
    exists sec, ecdh_secret P cv a (ecdh_pub P cv b) = Some sec /\
                ecdh_secret P cv b (ecdh_pub P cv a) = Some sec;
  gcm_roundtrip : forall k iv pt,
    gcm_open P k iv (fst (gcm_seal P k iv pt)) (snd (gcm_seal P k iv pt)) = Some pt
}.

(** ** Client state, world and monad *)

Record client : Type := mkClient {
  curve : string;
  privateKey : string;
  publicKey : string;
  serverPublicKey : option json     (* null, or what the server sent *)
}.

Definition set_serverPublicKey (c : client) (v : json) : client :=
  mkClient (curve c) (privateKey c) (publicKey c) (Some v).

(** [hasServerPublicKey()]: [this.serverPublicKey !== null]. *)
Definition hasServerPublicKey (c : client) : bool :=
  match serverPublicKey c with Some _ => true | None => false end.

Record request : Type := mkRequest {
  req_method : string;
  req_url : string;
  req_body : option string
}.

(** A fetch response; [ok] is derived from the status as the Fetch API does. *)
Record response : Type := mkResponse {
  resp_status : Z;
  resp_text : string
}.

Definition resp_ok (r : response) : bool :=
  (200 <=? resp_status r)%Z && (resp_status r <=? 299)%Z.

(** Observable operations, recorded in call order. *)
Inductive event : Type :=
| Ev_keygen        (* ephemeral createECDH().generateKeys() *)
| Ev_random        (* randomBytes *)
| Ev_ecdh          (* computeSecret *)
| Ev_hash          (* sha256 key derivation *)
| Ev_cipher        (* AES-GCM encryption *)
| Ev_hmac          (* HMAC computation *)
| Ev_decipher      (* AES-GCM decryption *)
| Ev_fetch (r : request).

Record world : Type := mkWorld {
  cl : client;
  clock : Z;          (* Date.now(), milliseconds *)
  seed : nat;         (* position in the random stream *)
  trace : list event
}.

Inductive res (A : Type) : Type :=
| Ok (a : A)
| Err (e : err).
Arguments Ok {A} a.
Arguments Err {A} e.

Definition M (A : Type) : Type := world -> res A * world.

Definition ret {A} (a : A) : M A := fun w => (Ok a, w).
Definition throw {A} (e : err) : M A := fun w => (Err e, w).
Definition bind {A B} (m : M A) (k : A -> M B) : M B :=
  fun w => match m w with
           | (Ok a, w') => k a w'
           | (Err e, w') => (Err e, w')
           end.

Notation "x <- m ;; k" := (bind m (fun x => k))
  (at level 61, m at next level, right associativity).
Notation "m ;;; k" := (bind m (fun _ => k))
  (at level 61, right associativity).

Definition get_client : M client := fun w => (Ok (cl w), w).
Definition put_client (c : client) : M unit :=
  fun w => (Ok tt, mkWorld c (clock w) (seed w) (trace w)).
Definition now_ms : M Z := fun w => (Ok (clock w), w).
Definition emit (e : event) : M unit :=
  fun w => (Ok tt, mkWorld (cl w) (clock w) (seed w) (trace w ++ [e])).

(** [try { m } catch (e) { h e }] *)
Definition catch {A} (m : M A) (h : err -> M A) : M A :=
  fun w => match m w with
           | (Ok a, w') => (Ok a, w')
           | (Err e, w') => h e w'
           end.

Definition lift_opt {A} (e : err) (o : option A) : M A :=
  match o with Some a => ret a | None => throw e end.

Section Client.

Context (P : prims).
(** the random stream behind [generateKeys] and [randomBytes] *)
Context (rnd : nat -> string).
(** the remote side: the response to a request and the time it takes (ms) *)
Context (net : request -> response * Z).

Definition fresh (e : event) : M string :=
  fun w => (Ok (rnd (seed w)),
            mkWorld (cl w) (clock w) (S (seed w)) (trace w ++ [e])).

Definition fetch (r : request) : M response :=
  fun w => let '(resp, dt) := net r in
           (Ok resp, mkWorld (cl w) (clock w + dt)%Z (seed w) (trace w ++ [Ev_fetch r])).

(** The six authenticated fields joined by colons ([dataToAuthenticate]). *)
Definition auth_data (f0 f1 f2 f3 f4 f5 : string) : string :=
  f0 ++ ":" ++ f1 ++ ":" ++ f2 ++ ":" ++ f3 ++ ":" ++ f4 ++ ":" ++ f5.

(** [derivedKey.slice(0, 32)] and [Buffer.concat([derivedKey, 'HMAC_KEY'])] *)
Definition aes_key (dk : string) : string := substring 0 32 dk.
Definition hmac_key (dk : string) : string := dk ++ "HMAC_KEY".

(** [ECCClient.encrypt(data, serverPublicKey)] (types.ts 112-181).  Its
    [crypto.createECDH(this.curve)] is not checked again: [curve] is
    [readonly] and the constructor already called [createECDH] on it. *)
Definition encrypt (data : list (string * json)) (spk : string) : M string :=
  if String.eqb spk "" then throw EMissingKey else
  c <- get_client ;;
  eph <- fresh Ev_keygen ;;
  let ephemeralPublicKey := ecdh_pub P (curve c) eph in
  emit Ev_ecdh ;;;
  sharedSecret <- lift_opt ECrypto (ecdh_secret P (curve c) eph spk) ;;
  emit Ev_hash ;;;
  let derivedKey := sha256 P sharedSecret in
  let aesKey := aes_key derivedKey in
  let hmacKey := hmac_key derivedKey in
  let dataWithPublicKey := obj_set data "clientPublicKey" (JStr (publicKey c)) in
  let jsonData := json_stringify P (JObj dataWithPublicKey) in
  iv <- fresh Ev_random ;;
  emit Ev_cipher ;;;
  let '(encrypted, authTag) := gcm_seal P aesKey iv jsonData in
  let clientIdHash := substring 0 8 (hex P (sha256 P (publicKey c))) in
  t <- now_ms ;;
  let timestamp := Z_to_dec (t / 1000)%Z in
  let dataToAuthenticate :=
    auth_data clientIdHash ephemeralPublicKey (b64enc P iv) (b64enc P encrypted)
              (b64enc P authTag) timestamp in
  emit Ev_hmac ;;;
  let hmac := b64enc P (hmac_sha256 P hmacKey dataToAuthenticate) in
  ret (b64enc P (dataToAuthenticate ++ ":" ++ hmac)).

(** [new Date(timestamp * 1000).toISOString()] throws a RangeError unless the
    time value is a number within 8.64e15 ms of the epoch. *)
Definition date_ok (ts : option Z) : bool :=
  match ts with
  | Some t => (Z.abs (t * 1000) <=? 8640000000000000)%Z
  | None => false
  end.

(** [(currentTime - timestamp > 300)]; with [NaN] the comparison is false. *)
Definition expired (now : Z) (ts : option Z) : bool :=
  match ts with
  | Some t => (now - t >? 300)%Z
  | None => false
  end.

(** [ECCClient.decrypt] after [Buffer.from(bundle, 'base64').toString()]
    (types.ts 191-265). *)
Definition decrypt_text (text : string) : M json :=
  let parts := split_colon text in
  if negb (Nat.eqb (length parts) 7) then throw (EFormat (length parts)) else
  let p i := nth i parts "" in
  let clientId := p 0 in
  let ephemeralPublicKey := p 1 in
  let iv := b64dec P (p 2) in
  let encryptedData := b64dec P (p 3) in
  let authTag := b64dec P (p 4) in
  let timestamp := parse_int10 (p 5) in
  let receivedHmac := p 6 in
  (* logger.debug(`timestamp: ... ${new Date(timestamp * 1000).toISOString()}`) *)
  if negb (date_ok timestamp) then throw ERange else
  t <- now_ms ;;
  let currentTime := (t / 1000)%Z in
  if expired currentTime timestamp then throw EExpired else
  c <- get_client ;;
  emit Ev_ecdh ;;;
  sharedSecret <- lift_opt ECrypto (ecdh_secret P (curve c) (privateKey c) ephemeralPublicKey) ;;
  emit Ev_hash ;;;
  let derivedKey := sha256 P sharedSecret in
  let aesKey := aes_key derivedKey in
  let hmacKey := hmac_key derivedKey in
  let dataToAuthenticate := auth_data clientId ephemeralPublicKey (p 2) (p 3) (p 4) (p 5) in
  emit Ev_hmac ;;;
  let expectedHmac := b64enc P (hmac_sha256 P hmacKey dataToAuthenticate) in
  if negb (String.eqb expectedHmac receivedHmac) then throw EHmac else
  emit Ev_decipher ;;;
  decrypted <- lift_opt ECrypto (gcm_open P aesKey iv encryptedData authTag) ;;
  match json_parse P decrypted with
  | Some result => ret result
  | None => ret (JStr decrypted)
  end.

(** [ECCClient.decrypt(encryptedBundle)]; as in [encrypt], [createECDH] on
    the [readonly] curve the constructor accepted is not checked again. *)
Definition decrypt (bundle : string) : M json :=
  decrypt_text (b64dec P bundle).

(** [this.encrypt(data, this.serverPublicKey)] with whatever the server sent:
    a string is a key in hex; for any other value [!serverPublicKey] is
    checked, the ephemeral key generated, and then [Buffer.from(value, 'hex')]
    either throws or gives the bytes, with which [encrypt] goes on as for a
    string key (its lines 125-180, repeated here). *)
Definition encrypt_value (data : list (string * json)) (v : json) : M string :=
  match v with
  | JStr k => encrypt data k
  | _ =>
    if negb (truthy v) then throw EMissingKey else
    c <- get_client ;;
    eph <- fresh Ev_keygen ;;
    let ephemeralPublicKey := ecdh_pub P (curve c) eph in
    spk <- lift_opt ETypeError (buffer_hex P v) ;;
    emit Ev_ecdh ;;;
    sharedSecret <- lift_opt ECrypto (ecdh_secret P (curve c) eph spk) ;;
    emit Ev_hash ;;;
    let derivedKey := sha256 P sharedSecret in
    let aesKey := aes_key derivedKey in
    let hmacKey := hmac_key derivedKey in
    let dataWithPublicKey := obj_set data "clientPublicKey" (JStr (publicKey c)) in
    let jsonData := json_stringify P (JObj dataWithPublicKey) in
    iv <- fresh Ev_random ;;
    emit Ev_cipher ;;;
    let '(encrypted, authTag) := gcm_seal P aesKey iv jsonData in
    let clientIdHash := substring 0 8 (hex P (sha256 P (publicKey c))) in
    t <- now_ms ;;
    let timestamp := Z_to_dec (t / 1000)%Z in
    let dataToAuthenticate :=
      auth_data clientIdHash ephemeralPublicKey (b64enc P iv) (b64enc P encrypted)
                (b64enc P authTag) timestamp in
    emit Ev_hmac ;;;
    let hmac := b64enc P (hmac_sha256 P hmacKey dataToAuthenticate) in
    ret (b64enc P (dataToAuthenticate ++ ":" ++ hmac))
  end.

(** [obj.k] on a parsed JSON value: reading a property of [null] throws a
    TypeError; a value that is not an object has no such own property. *)
Definition get_prop (v : json) (k : string) : M (option json) :=
  match v with
  | JNull => throw ETypeError
  | JObj fs => ret (obj_lookup fs k)
  | _ => ret None
  end.

(** [ECCClient.getServerPublicKey(baseUrl)] (types.ts 273-302).  The request
    headers are left out.  Any truthy [serverPublicKey] is cached; one that
    is not a string then makes [.substring] in the debug line throw a
    TypeError. *)
Definition getServerPublicKey (baseUrl : string) : M string :=
  catch (
    c <- get_client ;;
    let keyEndpoint := baseUrl ++ "/api/v4/keys/public" in
    let body := json_stringify P (JObj [("clientPublicKey", JStr (publicKey c))]) in
    response <- fetch (mkRequest "POST" keyEndpoint (Some body)) ;;
    if negb (resp_ok response) then
      throw (EHttp (resp_status response) (resp_text response))
    else
    data <- lift_opt ESyntax (json_parse P (resp_text response)) ;;
    spk <- get_prop data "serverPublicKey" ;;
    match spk with
    | Some v =>
        if negb (truthy v) then throw EMissingPub else
        c' <- get_client ;;
        put_client (set_serverPublicKey c' v) ;;;
        match v with
        | JStr k => ret k
        | _ => throw ETypeError
        end
    | None => throw EMissingPub
    end)
  (fun e => (* logger.error(...); throw error *) throw e).

(** What [makeRequest] returns: the fields of [RequestResponse] it sets;
    [duration] is kept in milliseconds (the source divides it by 1000). *)
Record req_result : Type := mkResult {
  status : Z;
  duration_ms : Z;
  responseData : option json;
  responseText : option string
}.

(** [this.decrypt(responseData.ENC)]: a string goes through [decrypt]; any
    other value reaches [Buffer.from(value, 'base64')]. *)
Definition decrypt_value (v : json) : M json :=
  match v with
  | JStr s => decrypt s
  | _ => text <- lift_opt ETypeError (buffer_of_value P v) ;; decrypt_text text
  end.

(** Lines 351-380 of [makeRequest]: classify the body of a successful
    response. *)
Definition handle_body (st dur : Z) (responseText : string) : M req_result :=
  catch (
    responseData <- lift_opt ESyntax (json_parse P responseText) ;;
    enc <- get_prop responseData "ENC" ;;
    match enc with
    | Some v =>
        if truthy v then
          decryptedData <- decrypt_value v ;;
          ret (mkResult st dur (Some decryptedData) None)
        else ret (mkResult st dur (Some responseData) None)
    | None => ret (mkResult st dur (Some responseData) None)
    end)
  (fun _ => ret (mkResult st dur None (Some responseText))).

(** [!this.serverPublicKey] negated *)
Definition key_truthy (k : option json) : bool :=
  match k with Some v => truthy v | None => false end.

(** [ECCClient.makeRequest(endpoint, data)] (types.ts 310-385); the request
    headers are left out. *)
Definition makeRequest (endpoint : string) (data : list (string * json))
  : M req_result :=
  catch (
    baseUrl <- lift_opt EUrl (url_origin P endpoint) ;;
    c <- get_client ;;
    (if negb (key_truthy (serverPublicKey c))
     then getServerPublicKey baseUrl ;;; ret tt else ret tt) ;;;
    c' <- get_client ;;
    match serverPublicKey c' with
    | Some v =>
        if negb (truthy v) then throw ENoServerKey else
        encryptedData <- encrypt_value data v ;;
        let url := endpoint ++ "?ENC=" ++ encode_uri_component P encryptedData in
        startTime <- now_ms ;;
        response <- fetch (mkRequest "GET" url None) ;;
        endTime <- now_ms ;;
        let duration := (endTime - startTime)%Z in
        if negb (resp_ok response) then
          throw (EHttp (resp_status response) (resp_text response))
        else handle_body (resp_status response) duration (resp_text response)
    | None => throw ENoServerKey
    end)
  (fun e => (* logger.error(...); throw error *) throw e).

End Client.

(** ** Key pairs (types.ts 67-104) and the key endpoints (src/endpoints/keys) *)

Section Keys.

Context (P : prims) (rnd : nat -> string) (net : request -> response * Z).

(** [ECCClient.generateKeyPair()] (types.ts 81-90): [crypto.createECDH]
    throws for a curve it does not know ([ECrypto]); otherwise
    [generateKeys()] draws a private key from the random stream; [getPrivateKey('hex')] and
    [getPublicKey('hex')] replace both long-term keys.  The cached server
    key is left as it is. *)
Definition generateKeyPair : M unit :=
  c <- get_client ;;
  if negb (curve_ok P (curve c)) then throw ECrypto else
  priv <- fresh rnd Ev_keygen ;;
  put_client (mkClient (curve c) priv (ecdh_pub P (curve c) priv) (serverPublicKey c)).

(** [new ECCClient(options)] (types.ts 67-76): [curve] is
    [options.curve ?? 'prime256v1'], the keys start as [''], the server key
    as [null], then [generateKeyPair()] runs.  [debug] and [logLevel] only
    reach the logger. *)
Definition new_ECCClient (curve_opt : option string) : M unit :=
  let cv := match curve_opt with Some c => c | None => "prime256v1" end in
  put_client (mkClient cv "" "" None) ;;;
  generateKeyPair.

(** [ECCClient.getPublicKey()] (types.ts 102-104) *)
Definition getPublicKey : M string :=
  c <- get_client ;; ret (publicKey c).

(** [keys.getPublicKey.call(client)] (endpoints/keys, 28-36): the handshake
    against the client's own [baseUrl]; errors are logged and rethrown. *)
Definition keys_getPublicKey (baseUrl : string) : M string :=
  catch (getServerPublicKey P net baseUrl) (fun e => throw e).

(** [keys.resetKeys.call(client)] (endpoints/keys, 43-54) *)
Definition resetKeys : M (string * bool) :=
  c <- get_client ;;
  put_client (mkClient (curve c) (privateKey c) (publicKey c) None) ;;;
  generateKeyPair ;;;
  pk <- getPublicKey ;;
  c' <- get_client ;;
  ret (pk, hasServerPublicKey c').

End Keys.

(** ** The file system and the host (src/utils/constants.ts and helpers) *)

(** Paths are taken in the normal form [path.join] gives them: no trailing
    [/], no [.] or [..] parts.  The strict ancestors of a path, outermost
    first, are its prefixes that end just before a [/]; the empty prefix
    (the root, or the working directory of a relative path) is left out:
    it always exists. *)
Fixpoint ancestors_from (acc s : string) : list string :=
  match s with
  | EmptyString => []
  | String c s' =>
      let rest := ancestors_from (acc ++ String c EmptyString) s' in
      if Ascii.eqb c "/"%char && negb (String.eqb acc "") then acc :: rest else rest
  end.

Definition ancestors (p : string) : list string := ancestors_from "" p.

(** the directory holding [p]; [""] for the root or working directory *)
Definition parent_dir (p : string) : string := last (ancestors p) "".

(** The part of the file system the SDK touches: the directories, the files
    by path, and the directories in which no entry can be created. *)
Record fsys : Type := mkFs {
  fs_dirs : list string;
  fs_files : list (string * string);
  fs_readonly : list string
}.

Definition is_dir (f : fsys) (p : string) : bool := existsb (String.eqb p) (fs_dirs f).
Definition is_file (f : fsys) (p : string) : bool :=
  existsb (fun e => String.eqb p (fst e)) (fs_files f).
Definition writable (f : fsys) (d : string) : bool :=
  negb (existsb (String.eqb d) (fs_readonly f)).

(** [fs.existsSync(p)] *)
Definition fs_exists (f : fsys) (p : string) : bool := is_dir f p || is_file f p.

(** The directories of [ds] made one after the other, outermost first, as
    [mkdir -p] does; it stops at the first failure, keeping those already
    made, with the error code: a file in the way ([EEXIST] for the last
    one, [ENOTDIR] for an ancestor), or a read-only parent ([EACCES]). *)
Fixpoint mkdirs (f : fsys) (ds : list string) : fsys * option string :=
  match ds with
  | [] => (f, None)
  | d :: ds' =>
      if is_dir f d then mkdirs f ds'
      else if is_file f d then (f, Some match ds' with [] => "EEXIST" | _ => "ENOTDIR" end)
      else if negb (writable f (parent_dir d)) then (f, Some "EACCES")
      else mkdirs (mkFs (d :: fs_dirs f) (fs_files f) (fs_readonly f)) ds'
  end.

(** [fs.mkdirSync(dir, { recursive: true })]: makes the missing ancestors
    and [dir]. *)
Definition fs_mkdir (f : fsys) (dir : string) : fsys * option string :=
  mkdirs f (ancestors dir ++ [dir]).

(** Resolving the ancestors of a path: the first one that is not a
    directory fails the call, with [ENOTDIR] when it is a file and [ENOENT]
    when it is missing. *)
Fixpoint path_error (f : fsys) (ps : list string) : option string :=
  match ps with
  | [] => None
  | a :: ps' =>
      if is_dir f a then path_error f ps'
      else Some (if is_file f a then "ENOTDIR" else "ENOENT")
  end.

(** [fs.writeFileSync(p, text)]: creates or replaces the file. *)
Fixpoint file_set (fs : list (string * string)) (p text : string) : list (string * string) :=
  match fs with
  | [] => [(p, text)]
  | (p', t') :: fs' => if String.eqb p p' then (p, text) :: fs' else (p', t') :: file_set fs' p text
  end.

Definition fs_write (f : fsys) (p text : string) : fsys * option string :=
  match path_error f (ancestors p) with
  | Some code => (f, Some code)
  | None =>
      if is_dir f p then (f, Some "EISDIR")
      else if negb (is_file f p) && negb (writable f (parent_dir p)) then (f, Some "EACCES")
      else (mkFs (fs_dirs f) (file_set (fs_files f) p text) (fs_readonly f), None)
  end.


(** Builtins of the host beyond [prims]. *)
Record host : Type := {
  (** [new Date(ms).toISOString()] for the current time *)
  iso_string : Z -> string;
  (** [path.join(a, b)] *)
  path_join : string -> string -> string;
  (** [process.cwd()] *)
  cwd : string;
  (** [JSON.stringify(data, null, 2)] *)
  json_pretty : json -> string
}.

(** [s.replace(/[:.]/g, '-')] *)
Fixpoint dash_colons_dots (s : string) : string :=
  match s with
  | EmptyString => EmptyString
  | String c s' =>
      String (if Ascii.eqb c ":"%char || Ascii.eqb c "."%char then "-"%char else c)
             (dash_colons_dots s')
  end.

(** [DEFAULT_RESULTS_DIR] (constants.ts 10) *)
Definition DEFAULT_RESULTS_DIR (H : host) : string := path_join H (cwd H) "results".

(** ** The DataHunterClient (src/client/dataHunter-client.ts) *)

(** What the facade and the endpoints throw: the client's errors, and the
    two argument checks of the query endpoints. *)
Inductive dh_err : Type :=
| DHE (e : err)
| EFs (code : string)            (* a file system call threw, with its code *)
| EQueryId                       (* 'query id is required' *)
| EQueryName.                    (* 'query name is required' *)

Inductive dres (A : Type) : Type :=
| DOk (a : A)
| DErr (e : dh_err).
Arguments DOk {A} a.
Arguments DErr {A} e.

(** The facade's computations also touch the file system. *)
Definition MD (A : Type) : Type := fsys * world -> dres A * (fsys * world).

Definition retD {A} (a : A) : MD A := fun s => (DOk a, s).
Definition throwD {A} (e : dh_err) : MD A := fun s => (DErr e, s).
Definition bindD {A B} (m : MD A) (k : A -> MD B) : MD B :=
  fun s => match m s with
           | (DOk a, s') => k a s'
           | (DErr e, s') => (DErr e, s')
           end.

(** A computation of the crypto client, run on the world. *)
Definition liftM {A} (m : M A) : MD A :=
  fun s => let '(r, w') := m (snd s) in
           (match r with Ok a => DOk a | Err e => DErr (DHE e) end, (fst s, w')).

Definition get_fs : MD fsys := fun s => (DOk (fst s), s).
(** A file system call: its new state, and the error it throws if any. *)
Definition fs_call (r : fsys * option string) : MD unit :=
  fun s => (match snd r with None => DOk tt | Some code => DErr (EFs code) end, (fst r, snd s)).

Notation "x <-- m ;; k" := (bindD m (fun x => k))
  (at level 61, m at next level, right associativity).
Notation "m ;;;; k" := (bindD m (fun _ => k))
  (at level 61, right associativity).

(** [ensureResultsDir(dir)] (helpers, 22-27) *)
Definition ensureResultsDir (dir : string) : MD string :=
  f <-- get_fs ;;
  (if negb (fs_exists f dir) then fs_call (fs_mkdir f dir) else retD tt) ;;;;
  retD dir.

Section Facade.

Context (P : prims) (H : host) (rnd : nat -> string) (net : request -> response * Z).

(** [saveResponse(data, dir, prefix)] (helpers, 36-49) *)
Definition saveResponse (data : json) (dir prefix : string) : MD string :=
  t <-- liftM now_ms ;;
  let timestamp := dash_colons_dots (iso_string H t) in
  let fileName := prefix ++ "-" ++ timestamp ++ ".json" in
  let filePath := path_join H dir fileName in
  ensureResultsDir dir ;;;;
  f <-- get_fs ;;
  fs_call (fs_write f filePath (json_pretty H data)) ;;;;
  retD filePath.

(** The fields of a [DataHunterClient] besides [crypto] (the client in the
    world). *)
Record dh_client : Type := mkDH {
  baseUrl : string;
  resultsDir : string;
  saveResponses : bool
}.

(** [baseUrl.endsWith('/') ? baseUrl.slice(0, -1) : baseUrl] *)
Fixpoint ends_with_slash (s : string) : bool :=
  match s with
  | EmptyString => false
  | String c EmptyString => Ascii.eqb c "/"%char
  | String _ s' => ends_with_slash s'
  end.

Fixpoint drop_last (s : string) : string :=
  match s with
  | EmptyString => EmptyString
  | String _ EmptyString => EmptyString
  | String c s' => String c (drop_last s')
  end.

Definition trim_base (b : string) : string :=
  if ends_with_slash b then drop_last b else b.

(** [new DataHunterClient(baseUrl, options)] (67-122): options given as
    [resultsDir], [saveResponses] and the crypto curve ([None]: absent);
    the logger settings are left out. *)
Definition new_DataHunterClient (b : string) (resultsDir_opt : option string)
    (save_opt : option bool) (curve_opt : option string) : MD dh_client :=
  let d := mkDH (trim_base b)
                (match resultsDir_opt with Some r => r | None => DEFAULT_RESULTS_DIR H end)
                (match save_opt with Some v => v | None => false end) in
  ensureResultsDir (resultsDir d) ;;;;
  liftM (new_ECCClient P rnd curve_opt) ;;;;
  retD d.

(** [getFullUrl(endpoint)] (129-132) *)
Definition getFullUrl (d : dh_client) (endpoint : string) : string :=
  let relativePath := match endpoint with
                      | String "/"%char r => r
                      | _ => endpoint
                      end in
  baseUrl d ++ "/" ++ relativePath.

(** [RequestResponse] with the [filePath] that [request] may add. *)
Record dh_result : Type := mkDHResult {
  dh_response : req_result;
  filePath : option string
}.

(** [if (response.responseData && ...)]: [undefined] is falsy. *)
Definition data_truthy (d : option json) : bool :=
  match d with Some v => truthy v | None => false end.

(** [DataHunterClient.request(endpoint, data)] (140-165); [request] names
    the type of fetch requests here. *)
Definition dh_request (d : dh_client) (endpoint : string) (data : list (string * json))
  : MD dh_result :=
  let fullUrl := getFullUrl d endpoint in
  c <-- liftM get_client ;;
  (if negb (hasServerPublicKey c)
   then liftM (keys_getPublicKey P net (baseUrl d)) ;;;; retD tt
   else retD tt) ;;;;
  response <-- liftM (makeRequest P rnd net fullUrl data) ;;
  match responseData response with
  | Some v =>
      if truthy v && saveResponses d then
        p <-- saveResponse v (resultsDir d) "response" ;;
        retD (mkDHResult response (Some p))
      else retD (mkDHResult response None)
  | None => retD (mkDHResult response None)
  end.

(** [{ parameters: Array.isArray(parameters) ? parameters : [], apikey: apiKey }]:
    an absent [apiKey] leaves [apikey] undefined, which [JSON.stringify]
    drops; it is left out here. *)
Definition query_fields (parameters : json) (apiKey : option string)
  : list (string * json) :=
  let ps := match parameters with JArr _ => parameters | _ => JArr [] end in
  ("parameters", ps) :: match apiKey with Some k => [("apikey", JStr k)] | None => [] end.

(** [query.executeById(queryId, parameters, apiKey)] (endpoints/query, 12-33) *)
Definition executeById (d : dh_client) (queryId : string) (parameters : json)
    (apiKey : option string) : MD dh_result :=
  if String.eqb queryId "" then throwD EQueryId else
  dh_request d ("/api/v4/query/" ++ queryId) (query_fields parameters apiKey).

(** [query.executeByName(queryName, parameters, apiKey)] (endpoints/query, 43-65) *)
Definition executeByName (d : dh_client) (queryName : string) (parameters : json)
    (apiKey : option string) : MD dh_result :=
  if String.eqb queryName "" then throwD EQueryName else
  dh_request d "/api/v4/query" (("queryName", JStr queryName) :: query_fields parameters apiKey).

End Facade.

(** ** A concrete instance of the builtins

    Used to run the model on concrete inputs.  It is not cryptography: it
    only satisfies [prims_laws].  Base64 and hex are an escape code that
    never emits a colon, the ECDH secret of [a] and [pub b] is the decimal
    length of [a] and [b] together, GCM keeps the plaintext and tags it with
    key and IV, and JSON is printed and parsed for an ASCII subset (integral
    numbers, strings escaping only quote and backslash). *)
Module Toy.

Definition dq : ascii := ascii_of_nat 34.
Definition bs : ascii := ascii_of_nat 92.
Definition pct : ascii := "%"%char.

Fixpoint esc (s : string) : string :=
  match s with
  | EmptyString => EmptyString
  | String c s' =>
      if Ascii.eqb c colon then String pct (String "c"%char (esc s'))
      else if Ascii.eqb c pct then String pct (String pct (esc s'))
      else String c (esc s')
  end.

Fixpoint unesc (s : string) : string :=
  match s with
  | EmptyString => EmptyString
  | String c r =>
      if Ascii.eqb c pct then
        match r with
        | String d r' =>
            if Ascii.eqb d "c"%char then String colon (unesc r')
            else if Ascii.eqb d pct then String pct (unesc r')
            else String c (unesc r)
        | EmptyString => String c EmptyString
        end
      else String c (unesc r)
  end.

Fixpoint quote_body (s : string) : string :=
  match s with
  | EmptyString => EmptyString
  | String c s' =>
      if Ascii.eqb c dq || Ascii.eqb c bs then String bs (String c (quote_body s'))
      else String c (quote_body s')
  end.

Definition quote (s : string) : string :=
  String dq (quote_body s ++ String dq EmptyString).

Fixpoint print (v : json) : string :=
  match v with
  | JNull => "null"
  | JBool true => "true"
  | JBool false => "false"
  | JNum z => Z_to_dec z
  | JStr s => quote s
  | JArr l =>
      "[" ++ (fix go (l : list json) : string :=
                match l with
                | [] => ""
                | [x] => print x
                | x :: r => print x ++ "," ++ go r
                end) l ++ "]"
  | JObj fs =>
      "{" ++ (fix go (fs : list (string * json)) : string :=
                match fs with
                | [] => ""
                | [(k, x)] => quote k ++ ":" ++ print x
                | (k, x) :: r => quote k ++ ":" ++ print x ++ "," ++ go r
                end) fs ++ "}"
  end.

Definition is_ws (c : ascii) : bool :=
  let n := nat_of_ascii c in (n =? 32)%nat || (n =? 9)%nat || (n =? 10)%nat || (n =? 13)%nat.

Fixpoint skip_ws (s : string) : string :=
  match s with
  | String c r => if is_ws c then skip_ws r else s
  | EmptyString => EmptyString
  end.

Fixpoint str_body (s : string) : option (string * string) :=
  match s with
  | EmptyString => None
  | String c r =>
      if Ascii.eqb c dq then Some (EmptyString, r)
      else if Ascii.eqb c bs then
        match r with
        | String d r' =>
            match str_body r' with
            | Some (t, rest) => Some (String d t, rest)
            | None => None
            end
        | EmptyString => None
        end
      else match str_body r with
           | Some (t, rest) => Some (String c t, rest)
           | None => None
           end
  end.

Fixpoint drop_digits (s : string) : string :=
  match s with
  | String c r => match digit_val c with Some _ => drop_digits r | None => s end
  | EmptyString => EmptyString
  end.

Definition number (s : string) : option (json * string) :=
  match s with
  | String c r =>
      if Ascii.eqb c "-"%char then
        if starts_with_digit r then Some (JNum (- scan_digits 0 r)%Z, drop_digits r) else None
      else if starts_with_digit s then Some (JNum (scan_digits 0 s), drop_digits s) else None
  | EmptyString => None
  end.

Definition literal (lit : string) (v : json) (s : string) : option (json * string) :=
  if String.prefix lit s then Some (v, substring (String.length lit) (String.length s - String.length lit) s)
  else None.

Definition head_is (c : ascii) (s : string) : bool :=
  match s with String d _ => Ascii.eqb c d | EmptyString => false end.

Definition tail (s : string) : string :=
  match s with String _ r => r | EmptyString => EmptyString end.

Fixpoint value (fuel : nat) (s : string) {struct fuel} : option (json * string) :=
  match fuel with
  | O => None
  | S f =>
      let s := skip_ws s in
      match s with
      | EmptyString => None
      | String c r =>
          if Ascii.eqb c dq then
            match str_body r with Some (t, rest) => Some (JStr t, rest) | None => None end
          else if Ascii.eqb c "["%char then
            if head_is "]"%char (skip_ws r) then Some (JArr [], tail (skip_ws r))
            else elems f [] r
          else if Ascii.eqb c "{"%char then
            if head_is "}"%char (skip_ws r) then Some (JObj [], tail (skip_ws r))
            else members f [] r
          else if Ascii.eqb c "n"%char then literal "null" JNull s
          else if Ascii.eqb c "t"%char then literal "true" (JBool true) s
          else if Ascii.eqb c "f"%char then literal "false" (JBool false) s
          else number s
      end
  end
with elems (fuel : nat) (acc : list json) (s : string) {struct fuel}
  : option (json * string) :=
  match fuel with
  | O => None
  | S f =>
      match value f s with
      | Some (v, rest) =>
          let rest := skip_ws rest in
          if head_is ","%char rest then elems f (acc ++ [v]) (tail rest)
          else if head_is "]"%char rest then Some (JArr (acc ++ [v]), tail rest)
          else None
      | None => None
      end
  end
with members (fuel : nat) (acc : list (string * json)) (s : string) {struct fuel}
  : option (json * string) :=
  match fuel with
  | O => None
  | S f =>
      let s := skip_ws s in
      if head_is dq s then
        match str_body (tail s) with
        | Some (k, rest) =>
            let rest := skip_ws rest in
            if head_is colon rest then
              match value f (tail rest) with
              | Some (v, rest') =>
                  let rest' := skip_ws rest' in
                  if head_is ","%char rest' then members f (obj_set acc k v) (tail rest')
                  else if head_is "}"%char rest' then Some (JObj (obj_set acc k v), tail rest')
                  else None
              | None => None
              end
            else None
        | None => None
        end
      else None
  end.

Definition parse (s : string) : option json :=
  match value (3 * String.length s + 3) s with
  | Some (v, rest) => if String.eqb (skip_ws rest) "" then Some v else None
  | None => None
  end.

Definition prims0 : prims := {|
  ecdh_pub := fun _ k => esc k;
  ecdh_secret := fun _ a p => Some (nat_to_dec (String.length a + String.length (unesc p)));
  key_ok := fun _ _ => true;
  sha256 := fun s => s;
  hex := esc;
  hmac_sha256 := fun k d => k ++ "|" ++ d;
  b64enc := esc;
  b64dec := unesc;
  buffer_of_value := fun _ => None;
  gcm_seal := fun k iv pt => (pt, k ++ iv);
  gcm_open := fun k iv ct tag => if String.eqb tag (k ++ iv) then Some ct else None;
  json_stringify := print;
  json_parse := parse;
  url_origin := fun u => Some u;
  encode_uri_component := fun s => s;
  buffer_hex := fun v => match v with JArr [] => Some "" | _ => None end;
  curve_ok := fun cv => String.eqb cv "prime256v1" || String.eqb cv "secp384r1"
|}.

End Toy.

(** ** Concrete inputs and auxiliary notions

    Concrete clients, responses and worlds on which the model is run, and
    the notions the frame and handshake properties are stated with. *)

(** Concrete clients: a sender and the receiver holding the peer key. *)
Definition toy_rnd (n : nat) : string :=
  match n with O => "ephemeral-key" | _ => "iv-twelve-by" end.
Definition toy_sender : client := mkClient "prime256v1" "sender-priv" "sender-pub" None.
Definition toy_receiver : client := mkClient "prime256v1" "receiver-priv" "receiver-pub" None.
Definition toy_peer_pub : string := ecdh_pub Toy.prims0 "prime256v1" "receiver-priv".
Definition toy_t0 : Z := 1700000000000%Z.

(** [m] leaves the client record as it found it. *)
Definition keeps_client {A} (m : M A) : Prop := forall w, cl (snd (m w)) = cl w.

(** The same world with another long-term private key. *)
Definition with_privateKey (w : world) (priv : string) : world :=
  mkWorld (mkClient (curve (cl w)) priv (publicKey (cl w)) (serverPublicKey (cl w)))
          (clock w) (seed w) (trace w).

(** The POST that [getServerPublicKey] sends. *)
Definition handshake_request (P : prims) (baseUrl : string) (c : client) : request :=
  mkRequest "POST" (baseUrl ++ "/api/v4/keys/public")
    (Some (json_stringify P (JObj [("clientPublicKey", JStr (publicKey c))]))).

(** A key server answering with a key. *)
Definition toy_key_body : string := Toy.print (JObj [("serverPublicKey", JStr "04ab")]).
Definition toy_key_net (r : request) : response * Z := (mkResponse 200 toy_key_body, 5%Z).
(** A key server answering with a number as [serverPublicKey]. *)
Definition toy_num_key_net (r : request) : response * Z :=
  (mkResponse 200 (Toy.print (JObj [("serverPublicKey", JNum 123)])), 5%Z).

(** A client with a cached server key, and API servers answering with an
    [ENC] field that is no envelope, and with [null]. *)
Definition toy_cached : client :=
  mkClient "prime256v1" "sender-priv" "sender-pub" (Some (JStr toy_peer_pub)).
Definition toy_endpoint : string := "https://api.example/api/v4/query".
Definition toy_enc_body : string := Toy.print (JObj [("ENC", JStr "abc")]).
Definition toy_enc_net (r : request) : response * Z := (mkResponse 200 toy_enc_body, 7%Z).
Definition toy_env : string :=
  match fst (encrypt Toy.prims0 toy_rnd [] toy_peer_pub (mkWorld toy_cached toy_t0 0 [])) with
  | Ok e => e
  | Err _ => ""
  end.
Definition toy_null_net (r : request) : response * Z :=
  (mkResponse 200 (Toy.print JNull), 7%Z).

(** The long-term key pair of a client, and computations that keep it. *)
Definition keys_of (c : client) : string * string * string :=
  (curve c, privateKey c, publicKey c).
Definition keeps_keys {A} (m : M A) : Prop :=
  forall w, keys_of (cl (snd (m w))) = keys_of (cl w).

(** The HTTP calls in a trace, and computations that make none. *)
Definition is_fetch (e : event) : bool :=
  match e with Ev_fetch _ => true | _ => false end.
Definition fetches (l : list event) : list event := filter is_fetch l.
Definition quiet {A} (m : M A) : Prop :=
  forall w, fetches (trace (snd (m w))) = fetches (trace w).

(** A concrete host: ISO time stamps of a fixed shape, [path.join] with a
    slash, the toy JSON printer. *)
Definition toy_host : host := {|
  iso_string := fun t => "2023-11-14T22:13:" ++ Z_to_dec (t mod 60000 / 1000) ++ ".000Z";
  path_join := fun a b => a ++ "/" ++ b;
  cwd := "/app";
  json_pretty := Toy.print
|}.
Definition toy_dh : dh_client := mkDH "https://api.example" "/app/results" true.
Definition toy_fs : fsys := mkFs [] [] [].
Definition toy_data_body : string := Toy.print (JObj [("rows", JNum 2)]).
Definition toy_data_net (r : request) : response * Z :=
  if String.eqb (req_method r) "POST" then (mkResponse 200 toy_key_body, 5%Z)
  else (mkResponse 200 toy_data_body, 7%Z).

(** The toy builtins with a [new URL] that only accepts https URLs and an
    ECDH that rejects the empty public key. *)
Definition toy_strict : prims :=
  Build_prims (ecdh_pub Toy.prims0)
    (fun cv a p => if String.eqb p "" then None else ecdh_secret Toy.prims0 cv a p)
    (key_ok Toy.prims0)
    (sha256 Toy.prims0) (hex Toy.prims0) (hmac_sha256 Toy.prims0) (b64enc Toy.prims0)
    (b64dec Toy.prims0) (buffer_of_value Toy.prims0) (gcm_seal Toy.prims0)
    (gcm_open Toy.prims0) (json_stringify Toy.prims0) (json_parse Toy.prims0)
    (fun u => if String.prefix "https://" u then Some u else None)
    (encode_uri_component Toy.prims0) (buffer_hex Toy.prims0) (curve_ok Toy.prims0).
Definition toy_fail_net (r : request) : response * Z := (mkResponse 503 "busy", 4%Z).
Definition toy_dec_body : string := Toy.print (JObj [("ENC", JStr toy_env)]).

(** Hand-made envelopes for the receiver: a valid MAC over a plaintext that
    is not JSON, a valid MAC over a wrong GCM tag, an empty ephemeral key. *)
Definition toy_auth (tag : string) : string :=
  auth_data "a1b2c3d4" "eph" "iv" "hello" tag "1700000000".
Definition toy_sealed (tag : string) : string :=
  Toy.esc (toy_auth tag ++ ":" ++ Toy.esc ("16HMAC_KEY|" ++ toy_auth tag)).
Definition toy_no_eph : string := Toy.esc "a1b2c3d4::iv:hello:16iv:1700000000:mac".
(** The toy builtins with an ECDH that only accepts uncompressed points,
    the keys that start with [04]. *)
Definition toy_points : prims :=
  Build_prims (ecdh_pub Toy.prims0)
    (fun cv a p => if String.prefix "04" p then ecdh_secret Toy.prims0 cv a p else None)
    (key_ok Toy.prims0)
    (sha256 Toy.prims0) (hex Toy.prims0) (hmac_sha256 Toy.prims0) (b64enc Toy.prims0)
    (b64dec Toy.prims0) (buffer_of_value Toy.prims0) (gcm_seal Toy.prims0)
    (gcm_open Toy.prims0) (json_stringify Toy.prims0) (json_parse Toy.prims0)
    (url_origin Toy.prims0) (encode_uri_component Toy.prims0) (buffer_hex Toy.prims0)
    (curve_ok Toy.prims0).
(** The envelope of the query fields [{ parameters: [] }] for the server
    key [toy_peer_pub]. *)
Definition toy_env_q : string :=
  match fst (encrypt Toy.prims0 toy_rnd (query_fields (JArr []) None) toy_peer_pub
               (mkWorld toy_cached toy_t0 0 [])) with
  | Ok e => e
  | Err _ => ""
  end.

(** * Properties *)

Lemma str_app_assoc (a b c : string) : (a ++ b) ++ c = a ++ (b ++ c).
Proof. induction a as [| x a IH]; simpl; [reflexivity | now rewrite IH]. Qed.

Lemma str_app_nil (a : string) : a ++ "" = a.
Proof. induction a as [| x a IH]; simpl; [reflexivity | now rewrite IH]. Qed.

(** ** Decimal printing and [parseInt] *)

Lemma digit_char_val (n : nat) : (n < 10)%nat -> digit_val (digit_char n) = Some (Z.of_nat n).
Proof.
  intros Hn. unfold digit_val, digit_char.
  rewrite Ascii.nat_ascii_embedding by lia.
  replace ((48 <=? 48 + n)%nat && (48 + n <=? 57)%nat) with true
    by (symmetry; apply andb_true_intro; split; apply Nat.leb_le; lia).
  f_equal. f_equal; lia.
Qed.

Lemma pos_size_bound (p : positive) :
  (Z.pos p < 2 ^ Z.of_nat (Pos.size_nat p))%Z.
Proof.
  induction p as [p IH | p IH |]; simpl Pos.size_nat.
  - rewrite Nat2Z.inj_succ, Z.pow_succ_r by lia. lia.
  - rewrite Nat2Z.inj_succ, Z.pow_succ_r by lia. lia.
  - simpl. lia.
Qed.

Lemma N_size_bound (n : N) : (Z.of_N n < 2 ^ Z.of_nat (N.size_nat n))%Z.
Proof. destruct n as [| p]; [simpl; lia | apply pos_size_bound]. Qed.

Lemma digits_of_scan (f : nat) (n : N) :
  (Z.of_N n < 2 ^ Z.of_nat f)%Z ->
  exists k, (0 <= k)%Z /\ forall acc rest,
    scan_digits acc (digits_of (S f) n ++ rest) = scan_digits (acc * 10 ^ k + Z.of_N n)%Z rest.
Proof.
  revert n. induction f as [| f IH]; intros n Hn.
  - simpl in Hn. assert (n = 0%N) by lia. subst n.
    exists 1%Z. split; [lia|]. intros acc rest. cbn -[Z.mul Z.add Z.pow].
    replace (digit_val "0") with (Some 0%Z) by reflexivity. f_equal; lia.
  - cbn [digits_of]. destruct (n <? 10)%N eqn:E.
    + apply N.ltb_lt in E. exists 1%Z. split; [lia|]. intros acc rest.
      cbn [append scan_digits].
      rewrite digit_char_val by lia. rewrite N_nat_Z. f_equal; lia.
    + apply N.ltb_ge in E.
      assert (Hb : (Z.of_N (n / 10) < 2 ^ Z.of_nat f)%Z).
      { rewrite Nat2Z.inj_succ, Z.pow_succ_r in Hn by lia.
        rewrite N2Z.inj_div. simpl (Z.of_N 10).
        apply Z.div_lt_upper_bound; lia. }
      destruct (IH _ Hb) as [k [Hk IHk]].
      exists (k + 1)%Z. split; [lia|]. intros acc rest.
      rewrite str_app_assoc. rewrite IHk. cbn [append scan_digits].
      rewrite digit_char_val by (pose proof (N.mod_lt n 10 ltac:(lia)); lia).
      rewrite N_nat_Z. f_equal.
      rewrite Z.pow_add_r, Z.pow_1_r by lia.
      rewrite N2Z.inj_div, N2Z.inj_mod. simpl (Z.of_N 10).
      pose proof (Z.div_mod (Z.of_N n) 10 ltac:(lia)). nia.
Qed.

Lemma digits_of_S (f : nat) (n : N) :
  digits_of (S f) n =
  if (n <? 10)%N then String (digit_char (N.to_nat n)) EmptyString
  else digits_of f (n / 10)%N ++ String (digit_char (N.to_nat (n mod 10))) EmptyString.
Proof. reflexivity. Qed.

Lemma digits_of_head (f : nat) (n : N) :
  exists c r, digits_of (S f) n = String c r /\ digit_val c <> None.
Proof.
  revert n. induction f as [| f IH]; intros n; rewrite digits_of_S;
    destruct (n <? 10)%N eqn:E.
  - apply N.ltb_lt in E. do 2 eexists. split; [reflexivity|].
    rewrite digit_char_val by lia. discriminate.
  - apply N.ltb_ge in E. cbn [digits_of append]. do 2 eexists. split; [reflexivity|].
    rewrite digit_char_val by (pose proof (N.mod_lt n 10 ltac:(lia)); lia).
    discriminate.
  - apply N.ltb_lt in E. do 2 eexists. split; [reflexivity|].
    rewrite digit_char_val by lia. discriminate.
  - destruct (IH (n / 10)%N) as [c [r [Hc Hd]]].
    rewrite Hc. cbn [append]. eauto.
Qed.

Lemma N_to_dec_scan (n : N) :
  exists c r, N_to_dec n = String c r /\ digit_val c <> None /\
    scan_digits 0 (N_to_dec n) = Z.of_N n.
Proof.
  unfold N_to_dec.
  destruct (digits_of_head (N.size_nat n) n) as [c [r [Hc Hd]]].
  destruct (digits_of_scan (N.size_nat n) n (N_size_bound n)) as [k [_ Hk]].
  exists c, r. split; [exact Hc|]. split; [exact Hd|].
  specialize (Hk 0%Z EmptyString). rewrite str_app_nil in Hk. rewrite Hk.
  reflexivity.
Qed.

Lemma parse_int10_digit (c : ascii) (r : string) :
  digit_val c <> None -> parse_int10 (String c r) = Some (1 * scan_digits 0 (String c r))%Z.
Proof.
  intros H. destruct c as [b0 b1 b2 b3 b4 b5 b6 b7];
    destruct b0, b1, b2, b3, b4, b5, b6, b7;
    solve [exfalso; apply H; reflexivity | reflexivity].
Qed.

Lemma parse_int10_minus (r : string) :
  parse_int10 (String "-"%char r) =
  if starts_with_digit r then Some (-1 * scan_digits 0 r)%Z else None.
Proof. reflexivity. Qed.

(** [parseInt(String(z), 10) === z] *)
Lemma parse_int10_Z_to_dec (z : Z) : parse_int10 (Z_to_dec z) = Some z.
Proof.
  unfold Z_to_dec. destruct (z <? 0)%Z eqn:E.
  - apply Z.ltb_lt in E.
    destruct (N_to_dec_scan (Z.to_N (- z))) as [c [r [Hc [Hd Hs]]]].
    cbn [append]. rewrite parse_int10_minus. rewrite Hc.
    unfold starts_with_digit. destruct (digit_val c) eqn:Hv; [|contradiction].
    rewrite <- Hc, Hs, Z2N.id by lia. f_equal. lia.
  - apply Z.ltb_ge in E.
    destruct (N_to_dec_scan (Z.to_N z)) as [c [r [Hc [Hd Hs]]]].
    rewrite Hc, parse_int10_digit by exact Hd. rewrite <- Hc, Hs, Z2N.id by lia.
    f_equal. lia.
Qed.

Lemma has_colon_app (a b : string) : has_colon (a ++ b) = has_colon a || has_colon b.
Proof.
  induction a as [| x a IH]; simpl; [reflexivity|]. rewrite IH. apply orb_assoc.
Qed.

Lemma digit_char_not_colon (k : nat) : (k < 10)%nat -> Ascii.eqb (digit_char k) colon = false.
Proof. intros H. do 10 (destruct k as [| k]; [reflexivity|]). lia. Qed.

Lemma digits_of_no_colon (f : nat) (n : N) : has_colon (digits_of f n) = false.
Proof.
  revert n. induction f as [| f IH]; intros n; [reflexivity|]. rewrite digits_of_S.
  destruct (n <? 10)%N eqn:E.
  - apply N.ltb_lt in E. cbn [has_colon]. rewrite digit_char_not_colon by lia. reflexivity.
  - rewrite has_colon_app, IH. cbn [has_colon].
    rewrite digit_char_not_colon by (pose proof (N.mod_lt n 10 ltac:(lia)); lia).
    reflexivity.
Qed.

Lemma Z_to_dec_no_colon (z : Z) : has_colon (Z_to_dec z) = false.
Proof.
  unfold Z_to_dec, N_to_dec. destruct (z <? 0)%Z.
  - cbn [append has_colon]. rewrite digits_of_no_colon. reflexivity.
  - apply digits_of_no_colon.
Qed.

(** ** Splitting on colons *)

Lemma split_no_colon (a : string) : has_colon a = false -> split_colon a = [a].
Proof.
  induction a as [| c a IH]; intros H; [reflexivity|].
  simpl in H. apply orb_false_iff in H as [Hc Ha].
  simpl. rewrite Hc, IH by exact Ha. reflexivity.
Qed.

Lemma split_app_colon (a b : string) :
  has_colon a = false -> split_colon (a ++ String colon b) = a :: split_colon b.
Proof.
  induction a as [| c a IH]; intros H; [reflexivity|].
  simpl in H. apply orb_false_iff in H as [Hc Ha].
  cbn [append split_colon]. rewrite Hc, IH by exact Ha. reflexivity.
Qed.

Lemma has_colon_substring (n m : nat) (s : string) :
  has_colon s = false -> has_colon (substring n m s) = false.
Proof.
  revert n m. induction s as [| c s IH]; intros n m H; destruct n, m; simpl in *; auto.
  apply orb_false_iff in H as [Hc Hs]. rewrite Hc. simpl. auto.
  apply orb_false_iff in H as [_ Hs]. auto.
  apply orb_false_iff in H as [_ Hs]. auto.
Qed.

(** An envelope body splits back into its seven fields. *)
Lemma split_envelope (f0 f1 f2 f3 f4 f5 f6 : string) :
  has_colon f0 = false -> has_colon f1 = false -> has_colon f2 = false ->
  has_colon f3 = false -> has_colon f4 = false -> has_colon f5 = false ->
  has_colon f6 = false ->
  split_colon (auth_data f0 f1 f2 f3 f4 f5 ++ ":" ++ f6) = [f0; f1; f2; f3; f4; f5; f6].
Proof.
  intros H0 H1 H2 H3 H4 H5 H6. unfold auth_data.
  repeat rewrite str_app_assoc. cbn [append].
  rewrite (split_app_colon f0) by exact H0. rewrite (split_app_colon f1) by exact H1.
  rewrite (split_app_colon f2) by exact H2. rewrite (split_app_colon f3) by exact H3.
  rewrite (split_app_colon f4) by exact H4. rewrite (split_app_colon f5) by exact H5.
  rewrite (split_no_colon f6) by exact H6. reflexivity.
Qed.

(** ** Round trip *)


(** C1 (amended): decrypting, with the receiver's private key and within the
    300-second window, an envelope produced by [encrypt data peerPub] yields
    [data] with its [clientPublicKey] field set to the sender's long-term
    public key. *)
Theorem decrypt_encrypt_roundtrip (P : prims) (L : prims_laws P)
    (rnd : nat -> string) (data : list (string * json)) (ws wr : world)
    (peerPriv : string) :
  let cv := curve (cl ws) in
  let sent := JObj (obj_set data "clientPublicKey" (JStr (publicKey (cl ws)))) in
  let t := (clock ws / 1000)%Z in
  key_ok P cv peerPriv = true ->
  key_ok P cv (rnd (seed ws)) = true ->
  ecdh_pub P cv peerPriv <> "" ->
  curve (cl wr) = cv ->
  privateKey (cl wr) = peerPriv ->
  json_parse P (json_stringify P sent) = Some sent ->
  (Z.abs (t * 1000) <= 8640000000000000)%Z ->
  (clock wr / 1000 - t <= 300)%Z ->
  match fst (encrypt P rnd data (ecdh_pub P cv peerPriv) ws) with
  | Ok env => fst (decrypt P env wr) = Ok sent
  | Err _ => False
  end.
Proof.
  intros cv sent t Hk1 Hk2 Hne Hcv Hpriv Hjson Hdate Hwin.
  destruct (ecdh_agree P L cv (rnd (seed ws)) peerPriv Hk2 Hk1) as [sec [Hs1 Hs2]].
  unfold encrypt. apply String.eqb_neq in Hne. rewrite Hne.
  cbn [bind get_client fresh emit lift_opt now_ms ret fst snd cl seed clock].
  fold cv. rewrite Hs1.
  cbn [bind get_client fresh emit lift_opt now_ms ret fst snd cl seed clock].
  destruct (gcm_seal P (aes_key (sha256 P sec)) (rnd (S (seed ws))) _) as [ct tag] eqn:Hg.
  cbn [bind get_client fresh emit lift_opt now_ms ret fst snd cl seed clock].
  unfold decrypt. rewrite (b64_roundtrip P L).
  unfold decrypt_text.
  rewrite split_envelope; try apply (b64_no_colon P L); try apply (pub_no_colon P L);
    try apply Z_to_dec_no_colon;
    try (apply has_colon_substring; apply (hex_no_colon P L)).
  cbn [length Nat.eqb negb nth].
  rewrite parse_int10_Z_to_dec. fold t.
  unfold date_ok. replace (Z.abs (t * 1000) <=? 8640000000000000)%Z with true
    by (symmetry; apply Z.leb_le; exact Hdate).
  cbn [negb bind now_ms fst].
  unfold expired. replace (clock wr / 1000 - t >? 300)%Z with false
    by (symmetry; rewrite Z.gtb_ltb; apply Z.ltb_ge; lia).
  cbn [bind get_client emit lift_opt cl].
  rewrite Hcv, Hpriv, Hs2.
  cbn [bind get_client emit lift_opt cl].
  cbn [bind ret emit lift_opt]. rewrite String.eqb_refl. cbn [negb bind emit ret].
  rewrite !(b64_roundtrip P L).
  pose proof (gcm_roundtrip P L (aes_key (sha256 P sec)) (rnd (S (seed ws)))
    (json_stringify P (JObj (obj_set data "clientPublicKey" (JStr (publicKey (cl ws))))))) as Hrt.
  rewrite Hg in Hrt. cbn [fst snd] in Hrt. rewrite Hrt.
  cbn [lift_opt bind ret]. fold sent. rewrite Hjson. reflexivity.
Qed.

(** ** The concrete instance satisfies the laws *)

Lemma toy_unesc_esc (s : string) : Toy.unesc (Toy.esc s) = s.
Proof.
  induction s as [| c s IH]; [reflexivity|]. cbn [Toy.esc].
  destruct (Ascii.eqb c colon) eqn:E1.
  - apply Ascii.eqb_eq in E1. subst c. cbn. now rewrite IH.
  - destruct (Ascii.eqb c Toy.pct) eqn:E2.
    + apply Ascii.eqb_eq in E2. subst c. cbn. now rewrite IH.
    + cbn [Toy.unesc]. rewrite E2. now rewrite IH.
Qed.

Lemma toy_esc_no_colon (s : string) : has_colon (Toy.esc s) = false.
Proof.
  induction s as [| c s IH]; [reflexivity|]. cbn [Toy.esc].
  destruct (Ascii.eqb c colon) eqn:E1; [cbn; exact IH|].
  destruct (Ascii.eqb c Toy.pct) eqn:E2; [cbn; exact IH|].
  cbn [has_colon]. rewrite E1, IH. reflexivity.
Qed.

Lemma toy_laws : prims_laws Toy.prims0.
Proof.
  split; cbn.
  - apply toy_unesc_esc.
  - apply toy_esc_no_colon.
  - apply toy_esc_no_colon.
  - intros _ k. apply toy_esc_no_colon.
  - intros _ a b _ _. rewrite !toy_unesc_esc. eexists. split; [reflexivity|].
    rewrite Nat.add_comm. reflexivity.
  - intros k iv pt. rewrite String.eqb_refl. reflexivity.
Qed.

Lemma decrypt_encrypt_roundtrip_witness :
  match fst (encrypt Toy.prims0 toy_rnd [("apikey", JStr "k"); ("parameters", JArr [])]
               toy_peer_pub (mkWorld toy_sender toy_t0 0 [])) with
  | Ok env => fst (decrypt Toy.prims0 env (mkWorld toy_receiver (toy_t0 + 300000) 0 [])) =
              Ok (JObj [("apikey", JStr "k"); ("parameters", JArr []);
                        ("clientPublicKey", JStr "sender-pub")])
  | Err _ => False
  end.
Proof.
  apply (decrypt_encrypt_roundtrip Toy.prims0 toy_laws toy_rnd
           [("apikey", JStr "k"); ("parameters", JArr [])]
           (mkWorld toy_sender toy_t0 0 []) (mkWorld toy_receiver (toy_t0 + 300000) 0 [])
           "receiver-priv");
    try reflexivity; try (vm_compute; congruence); vm_compute; congruence.
Defined.

(** C1 as stated fails: the decrypted value of an empty payload is not the
    empty object but carries the sender's [clientPublicKey]. *)
Lemma decrypt_encrypt_not_identity :
  match fst (encrypt Toy.prims0 toy_rnd [] toy_peer_pub (mkWorld toy_sender toy_t0 0 [])) with
  | Ok env =>
      fst (decrypt Toy.prims0 env (mkWorld toy_receiver toy_t0 0 [])) =
        Ok (JObj [("clientPublicKey", JStr "sender-pub")]) /\
      fst (decrypt Toy.prims0 env (mkWorld toy_receiver toy_t0 0 [])) <> Ok (JObj [])
  | Err _ => False
  end.
Proof. vm_compute. split; [reflexivity | discriminate]. Qed.

(** ** Envelope checks in [decrypt] *)

Section DecryptChecks.

Context (P : prims).

(** A decoded bundle whose field count is not 7 is rejected at once. *)
Lemma decrypt_text_format (text : string) (w : world) :
  length (split_colon text) <> 7%nat ->
  decrypt_text P text w = (Err (EFormat (length (split_colon text))), w).
Proof.
  intros H. unfold decrypt_text. apply Nat.eqb_neq in H. rewrite H. reflexivity.
Qed.

(** The fields of a seven-field bundle. *)
Lemma decrypt_text_fields (text : string) :
  length (split_colon text) = 7%nat ->
  exists f0 f1 f2 f3 f4 f5 f6, split_colon text = [f0; f1; f2; f3; f4; f5; f6].
Proof.
  intros H. destruct (split_colon text) as [| f0 [| f1 [| f2 [| f3 [| f4 [| f5 [| f6 [| f7 r]]]]]]]];
    simpl in H; try discriminate. eauto 8.
Qed.

(** Inside the range of [Date], the expiry check throws exactly when the
    envelope is more than 300 seconds old; a future timestamp passes it. *)
Lemma decrypt_expired_iff (text : string) (w : world) (t : Z) :
  length (split_colon text) = 7%nat ->
  parse_int10 (nth 5 (split_colon text) "") = Some t ->
  (Z.abs (t * 1000) <= 8640000000000000)%Z ->
  (fst (decrypt_text P text w) = Err EExpired <-> (clock w / 1000 - t > 300)%Z).
Proof.
  intros H7 Ht Hd. destruct (decrypt_text_fields text H7) as (f0 & f1 & f2 & f3 & f4 & f5 & f6 & Hs).
  rewrite Hs in Ht. cbn [nth] in Ht.
  unfold decrypt_text. rewrite Hs. cbn [length Nat.eqb negb nth].
  rewrite Ht. unfold date_ok.
  replace (Z.abs (t * 1000) <=? 8640000000000000)%Z with true by (symmetry; apply Z.leb_le; exact Hd).
  cbn [negb bind now_ms]. unfold expired.
  destruct (clock w / 1000 - t >? 300)%Z eqn:E.
  - rewrite Z.gtb_ltb, Z.ltb_lt in E. split; [lia | reflexivity].
  - rewrite Z.gtb_ltb, Z.ltb_ge in E. split; [| lia]. intros Hc. exfalso.
    revert Hc. cbn [bind get_client emit lift_opt].
    destruct (ecdh_secret P _ _ _); cbn [bind ret throw emit lift_opt fst]; [| discriminate].
    destruct (negb (_ =? f6)); cbn [bind ret throw emit lift_opt fst]; [discriminate |].
    destruct (gcm_open P _ _ _ _); cbn [bind ret throw emit lift_opt fst]; [| discriminate].
    destruct (json_parse P _); cbn [ret fst]; discriminate.
Qed.

End DecryptChecks.

(** C5: a bundle whose base64 decoding does not split into exactly seven
    colon-separated fields fails with the format error, whose message names
    the field count; the world (client, clock, random stream, trace of crypto
    operations) is left untouched, so no key derivation or check happened. *)
Theorem decrypt_malformed_count (P : prims) (bundle : string) (w : world) :
  let n := length (split_colon (b64dec P bundle)) in
  n <> 7%nat ->
  decrypt P bundle w = (Err (EFormat n), w) /\
  err_message (EFormat n) = "invalid format: " ++ nat_to_dec n ++ " parts".
Proof.
  intros n Hn. split; [| reflexivity].
  unfold decrypt, decrypt_text. fold n. apply Nat.eqb_neq in Hn. rewrite Hn. reflexivity.
Qed.

Lemma decrypt_malformed_count_witness :
  length (split_colon (b64dec Toy.prims0 (Toy.esc "1:2:3"))) <> 7%nat /\
  decrypt Toy.prims0 (Toy.esc "1:2:3") (mkWorld toy_receiver toy_t0 0 []) =
    (Err (EFormat 3), mkWorld toy_receiver toy_t0 0 []) /\
  err_message (EFormat 3) = "invalid format: 3 parts".
Proof.
  split; [vm_compute; discriminate|].
  exact (decrypt_malformed_count Toy.prims0 (Toy.esc "1:2:3") (mkWorld toy_receiver toy_t0 0 [])
           ltac:(vm_compute; discriminate)).
Defined.

(** C3 fails: the debug line
    [logger.debug(`timestamp: ... ${new Date(timestamp * 1000).toISOString()}`)]
    runs before the expiry check and throws a RangeError for a timestamp
    outside the range of [Date] (more than 8.64e12 s from the epoch): such a
    seven-field envelope, in the past or in the future, is neither judged by
    the 300-second test nor passed on; nothing else of the world changes. *)
Theorem decrypt_timestamp_outside_date_range (P : prims) (bundle : string) (w : world) (t : Z) :
  let parts := split_colon (b64dec P bundle) in
  length parts = 7%nat ->
  parse_int10 (nth 5 parts "") = Some t ->
  (Z.abs (t * 1000) > 8640000000000000)%Z ->
  decrypt P bundle w = (Err ERange, w).
Proof.
  intros parts H7 Ht Hd. unfold decrypt, decrypt_text. fold parts.
  rewrite H7. cbn [Nat.eqb negb]. rewrite Ht. unfold date_ok.
  replace (Z.abs (t * 1000) <=? 8640000000000000)%Z with false
    by (symmetry; apply Z.leb_gt; lia).
  reflexivity.
Qed.

(** The failing inputs: timestamps 9000000000000 (future) and
    -9000000000000 (past) in otherwise well-formed envelopes. *)
Lemma decrypt_timestamp_outside_date_range_witness :
  decrypt Toy.prims0 (Toy.esc "a1b2c3d4:eph:iv:ct:tag:9000000000000:mac")
    (mkWorld toy_receiver toy_t0 0 []) = (Err ERange, mkWorld toy_receiver toy_t0 0 []) /\
  decrypt Toy.prims0 (Toy.esc "a1b2c3d4:eph:iv:ct:tag:-9000000000000:mac")
    (mkWorld toy_receiver toy_t0 0 []) = (Err ERange, mkWorld toy_receiver toy_t0 0 []).
Proof.
  split.
  - apply (decrypt_timestamp_outside_date_range Toy.prims0 _ _ 9000000000000%Z);
      [reflexivity | reflexivity | vm_compute; reflexivity].
  - apply (decrypt_timestamp_outside_date_range Toy.prims0 _ _ (-9000000000000)%Z);
      [reflexivity | reflexivity | vm_compute; reflexivity].
Defined.

(** C10 fails: a sixth field that [parseInt] reads as [NaN] never
    raises the expiry error, but the same debug line throws a RangeError
    ([new Date(NaN).toISOString()]) before the expiry check: decrypt stops
    there, with no key derivation and no HMAC check (the world is unchanged). *)
Theorem decrypt_nan_timestamp (P : prims) (bundle : string) (w : world) :
  let parts := split_colon (b64dec P bundle) in
  length parts = 7%nat ->
  parse_int10 (nth 5 parts "") = None ->
  decrypt P bundle w = (Err ERange, w).
Proof.
  intros parts H7 Ht. unfold decrypt, decrypt_text. fold parts.
  rewrite H7. cbn [Nat.eqb negb]. rewrite Ht. reflexivity.
Qed.

Lemma decrypt_nan_timestamp_witness :
  decrypt Toy.prims0 (Toy.esc "a1b2c3d4:eph:iv:ct:tag:abc:mac")
    (mkWorld toy_receiver toy_t0 0 []) = (Err ERange, mkWorld toy_receiver toy_t0 0 []).
Proof. apply decrypt_nan_timestamp; reflexivity. Defined.

(** For a seven-field envelope whose timestamp is a date (within the range of
    [Date]) at most 300 seconds old or in the future, if the HMAC of the six
    transmitted fields under the MAC key derived from the local private key
    and the envelope's ephemeral key differs from the transmitted mac,
    decrypt fails with 'invalid hmac' after ECDH, key hashing and the HMAC
    only: no AES-GCM decryption is recorded, and the client state is
    unchanged. *)
Theorem decrypt_hmac_mismatch_in_range (P : prims) (bundle : string) (w : world) (t : Z) (sec : string) :
  let parts := split_colon (b64dec P bundle) in
  length parts = 7%nat ->
  parse_int10 (nth 5 parts "") = Some t ->
  (Z.abs (t * 1000) <= 8640000000000000)%Z ->
  (clock w / 1000 - t <= 300)%Z ->
  ecdh_secret P (curve (cl w)) (privateKey (cl w)) (nth 1 parts "") = Some sec ->
  b64enc P (hmac_sha256 P (hmac_key (sha256 P sec))
              (auth_data (nth 0 parts "") (nth 1 parts "") (nth 2 parts "")
                         (nth 3 parts "") (nth 4 parts "") (nth 5 parts "")))
    <> nth 6 parts "" ->
  decrypt P bundle w =
    (Err EHmac, mkWorld (cl w) (clock w) (seed w) (trace w ++ [Ev_ecdh; Ev_hash; Ev_hmac])).
Proof.
  intros parts H7 Ht Hd Hw Hs Hm.
  unfold decrypt, decrypt_text. fold parts.
  rewrite H7. cbn [Nat.eqb negb]. rewrite Ht. unfold date_ok.
  replace (Z.abs (t * 1000) <=? 8640000000000000)%Z with true
    by (symmetry; apply Z.leb_le; exact Hd).
  cbn [negb bind now_ms]. unfold expired.
  replace (clock w / 1000 - t >? 300)%Z with false
    by (symmetry; rewrite Z.gtb_ltb; apply Z.ltb_ge; lia).
  cbn [bind get_client emit lift_opt cl clock seed trace]. rewrite Hs.
  cbn [bind ret emit lift_opt cl clock seed trace].
  apply String.eqb_neq in Hm. rewrite Hm. cbn [negb throw].
  rewrite <- !app_assoc. reflexivity.
Qed.

Lemma decrypt_hmac_mismatch_in_range_witness :
  decrypt Toy.prims0 (Toy.esc "a1b2c3d4:eph:iv:ct:tag:1700000000:badmac")
    (mkWorld toy_receiver toy_t0 0 []) =
  (Err EHmac, mkWorld toy_receiver toy_t0 0 [Ev_ecdh; Ev_hash; Ev_hmac]).
Proof.
  apply (decrypt_hmac_mismatch_in_range Toy.prims0 _ (mkWorld toy_receiver toy_t0 0 [])
           1700000000%Z "16");
    [reflexivity | reflexivity | vm_compute; congruence | vm_compute; congruence
    | reflexivity | vm_compute; discriminate].
Defined.

(** C4 fails: an envelope with seven fields, not expired by the code's
    300-second test and with a mac that does not match, does not always fail
    with 'invalid hmac'.  When its timestamp is not a number, or is a number
    of seconds outside the range of [Date] (|t * 1000| > 8.64e15), the debug
    line that prints [new Date(timestamp * 1000).toISOString()] throws a
    RangeError first, before any key is derived or the HMAC computed; the
    world is unchanged.  (Within the range of [Date] the claim holds:
    [decrypt_hmac_mismatch_in_range].) *)
Theorem decrypt_hmac_mismatch_date_first (P : prims) (bundle : string) (w : world)
    (sec : string) :
  let parts := split_colon (b64dec P bundle) in
  length parts = 7%nat ->
  match parse_int10 (nth 5 parts "") with
  | Some t => (Z.abs (t * 1000) > 8640000000000000)%Z /\ (clock w / 1000 - t <= 300)%Z
  | None => True
  end ->
  ecdh_secret P (curve (cl w)) (privateKey (cl w)) (nth 1 parts "") = Some sec ->
  b64enc P (hmac_sha256 P (hmac_key (sha256 P sec))
              (auth_data (nth 0 parts "") (nth 1 parts "") (nth 2 parts "")
                         (nth 3 parts "") (nth 4 parts "") (nth 5 parts "")))
    <> nth 6 parts "" ->
  decrypt P bundle w = (Err ERange, w).
Proof.
  intros parts H7 Ht _ _.
  unfold decrypt, decrypt_text. fold parts.
  rewrite H7. cbn [Nat.eqb negb].
  destruct (parse_int10 (nth 5 parts "")) as [t |]; [| reflexivity].
  destruct Ht as [Hr _]. unfold date_ok.
  replace (Z.abs (t * 1000) <=? 8640000000000000)%Z with false
    by (symmetry; apply Z.leb_gt; lia).
  reflexivity.
Qed.

Lemma decrypt_hmac_mismatch_date_first_witness :
  decrypt Toy.prims0 (Toy.esc "a1b2c3d4:eph:iv:ct:tag:9000000000000:badmac")
    (mkWorld toy_receiver toy_t0 0 []) = (Err ERange, mkWorld toy_receiver toy_t0 0 []) /\
  decrypt Toy.prims0 (Toy.esc "a1b2c3d4:eph:iv:ct:tag:abc:badmac")
    (mkWorld toy_receiver toy_t0 0 []) = (Err ERange, mkWorld toy_receiver toy_t0 0 []).
Proof.
  split.
  - apply (decrypt_hmac_mismatch_date_first Toy.prims0 _ (mkWorld toy_receiver toy_t0 0 []) "16");
      [reflexivity | vm_compute; split; congruence | reflexivity | vm_compute; discriminate].
  - apply (decrypt_hmac_mismatch_date_first Toy.prims0 _ (mkWorld toy_receiver toy_t0 0 []) "16");
      [reflexivity | exact I | reflexivity | vm_compute; discriminate].
Defined.

(** C6: [encrypt(payload, "")] fails with 'server public key not provided'
    and leaves the world as it was: no key generation, ECDH or any other
    operation is recorded. *)
Theorem encrypt_empty_peer_key (P : prims) (rnd : nat -> string)
    (data : list (string * json)) (w : world) :
  encrypt P rnd data "" w = (Err EMissingKey, w) /\
  err_message EMissingKey = "server public key not provided".
Proof. split; reflexivity. Qed.

(** ** Frame: what [encrypt] and [decrypt] leave alone *)


Create HintDb frame.

Lemma keeps_ret {A} (a : A) : keeps_client (ret a).
Proof. intros w. reflexivity. Qed.
Lemma keeps_throw {A} (e : err) : keeps_client (@throw A e).
Proof. intros w. reflexivity. Qed.
Lemma keeps_emit (e : event) : keeps_client (emit e).
Proof. intros w. reflexivity. Qed.
Lemma keeps_now : keeps_client now_ms.
Proof. intros w. reflexivity. Qed.
Lemma keeps_get : keeps_client get_client.
Proof. intros w. reflexivity. Qed.
Lemma keeps_fresh (rnd : nat -> string) (e : event) : keeps_client (fresh rnd e).
Proof. intros w. reflexivity. Qed.
Lemma keeps_lift {A} (e : err) (o : option A) : keeps_client (lift_opt e o).
Proof. destruct o; intros w; reflexivity. Qed.
Lemma keeps_bind {A B} (m : M A) (k : A -> M B) :
  keeps_client m -> (forall a, keeps_client (k a)) -> keeps_client (bind m k).
Proof.
  intros Hm Hk w. unfold bind. specialize (Hm w).
  destruct (m w) as [[a | e] w'] eqn:E; simpl in *; [rewrite Hk; exact Hm | exact Hm].
Qed.

#[local] Hint Resolve keeps_ret keeps_throw keeps_emit keeps_now keeps_get keeps_fresh
  keeps_lift : frame.

Ltac keeps :=
  repeat first
    [ apply keeps_bind; [eauto with frame | intros]
    | progress (eauto with frame)
    | match goal with
      | |- keeps_client (if ?b then _ else _) => destruct b
      | |- keeps_client (match ?x with _ => _ end) => destruct x
      | |- keeps_client (let _ := _ in _) => cbv zeta
      end ].

Lemma encrypt_keeps_client (P : prims) (rnd : nat -> string) (data : list (string * json))
    (spk : string) : keeps_client (encrypt P rnd data spk).
Proof. unfold encrypt. keeps. Qed.

Lemma decrypt_keeps_client (P : prims) (bundle : string) : keeps_client (decrypt P bundle).
Proof. unfold decrypt, decrypt_text. keeps. Qed.

Lemma encrypt_value_keeps_client (P : prims) (rnd : nat -> string) (data : list (string * json))
    (v : json) : keeps_client (encrypt_value P rnd data v).
Proof. destruct v; try apply encrypt_keeps_client; unfold encrypt_value; keeps. Qed.


(** C9: every call of [encrypt] or [decrypt], successful or not, leaves the
    client's [privateKey], [publicKey] and [serverPublicKey] as they were;
    [encrypt] never reads the long-term private key: its output and its
    operations (one fresh ephemeral key generation, ECDH with that key, ...)
    are the same whatever that key is. *)
Theorem encrypt_decrypt_frame (P : prims) (rnd : nat -> string)
    (data : list (string * json)) (spk bundle : string) (w : world) :
  cl (snd (encrypt P rnd data spk w)) = cl w /\
  cl (snd (decrypt P bundle w)) = cl w /\
  (forall priv,
     fst (encrypt P rnd data spk (with_privateKey w priv)) = fst (encrypt P rnd data spk w) /\
     trace (snd (encrypt P rnd data spk (with_privateKey w priv))) =
       trace (snd (encrypt P rnd data spk w))).
Proof.
  split; [apply encrypt_keeps_client|]. split; [apply decrypt_keeps_client|].
  intros priv. unfold encrypt. destruct (spk =? "")%string; [split; reflexivity|].
  cbn [bind get_client fresh emit lift_opt now_ms ret fst snd cl seed clock trace
       with_privateKey curve publicKey].
  destruct (ecdh_secret P (curve (cl w)) (rnd (seed w)) spk); [| split; reflexivity].
  cbn [bind get_client fresh emit lift_opt now_ms ret fst snd cl seed clock trace
       curve publicKey].
  destruct (gcm_seal P _ _ _). split; reflexivity.
Qed.

(** ** Key handshake *)


(** C8: [getServerPublicKey(baseUrl)] sends one POST of
    [{clientPublicKey: <own public key>}] to [{baseUrl}/api/v4/keys/public];
    on a non-success status it fails with the status and the body text; on
    a success status whose JSON object has no [serverPublicKey] it fails with
    'response missing public key'; when that field holds a key it caches it
    ([hasServerPublicKey] becomes true) and returns it. *)
Theorem getServerPublicKey_spec (P : prims) (net : request -> response * Z)
    (baseUrl : string) (w : world) :
  let req := handshake_request P baseUrl (cl w) in
  let resp := fst (net req) in
  let r := fst (getServerPublicKey P net baseUrl w) in
  let w' := snd (getServerPublicKey P net baseUrl w) in
  trace w' = (trace w ++ [Ev_fetch req])%list /\
  (resp_ok resp = false ->
     r = Err (EHttp (resp_status resp) (resp_text resp)) /\
     err_message (EHttp (resp_status resp) (resp_text resp)) =
       "error " ++ Z_to_dec (resp_status resp) ++ ": " ++ resp_text resp) /\
  (forall fs, resp_ok resp = true ->
     json_parse P (resp_text resp) = Some (JObj fs) ->
     obj_lookup fs "serverPublicKey" = None ->
     r = Err EMissingPub) /\
  (forall fs k, resp_ok resp = true ->
     json_parse P (resp_text resp) = Some (JObj fs) ->
     obj_lookup fs "serverPublicKey" = Some (JStr k) -> k <> "" ->
     r = Ok k /\ serverPublicKey (cl w') = Some (JStr k) /\ hasServerPublicKey (cl w') = true).
Proof.
  intros req resp r w'. unfold r, w', resp. clear r w' resp.
  unfold getServerPublicKey, catch, bind, get_client, fetch.
  fold (handshake_request P baseUrl (cl w)). fold req.
  destruct (net req) as [resp0 dt] eqn:Hnet. cbn [fst snd].
  destruct (resp_ok resp0) eqn:Hok.
  - cbn [negb lift_opt throw ret trace snd fst cl].
    destruct (json_parse P (resp_text resp0)) as [data |] eqn:Hp.
    + cbn [lift_opt ret].
      destruct data as [| b | z | s | l | fs0]; cbn [get_prop throw ret fst snd trace];
        try (split; [reflexivity|]; split; [discriminate|]; split; intros; congruence).
      destruct (obj_lookup fs0 "serverPublicKey") as [v |] eqn:Hl;
        [| cbn [throw fst snd trace]; split; [reflexivity|]; split; [discriminate|];
           split; [intros; reflexivity | intros fs k _ Hj Hk; injection Hj as <-; congruence]].
      assert (Hsome : forall fs k, Some (JObj fs0) = Some (JObj fs) -> obj_lookup fs "serverPublicKey" = Some (JStr k) ->
                        v = JStr k) by (intros fs k Hj Hk; injection Hj as <-; congruence).
      destruct v as [| b | z | s | l | fs1]; cbn [truthy negb];
        try (destruct b); try (destruct (Z.eqb z 0));
        try (destruct (String.eqb s "") eqn:Es);
        cbn [negb throw ret fst snd trace bind put_client get_client cl set_serverPublicKey
             serverPublicKey hasServerPublicKey];
        (split; [reflexivity|]); (split; [discriminate|]);
        (split; [intros fs _ Hj Hn; injection Hj as <-; congruence|]);
        intros fs k _ Hj Hk Hne; specialize (Hsome fs k Hj Hk); try discriminate.
      * injection Hsome as ->. apply String.eqb_eq in Es. contradiction.
      * injection Hsome as ->. auto.
    + cbn [lift_opt throw fst snd trace]. split; [reflexivity|].
      split; [discriminate|]. split; intros; congruence.
  - cbn [negb throw fst snd trace]. split; [reflexivity|].
    split; [split; reflexivity|]. split; intros; discriminate.
Qed.


Lemma getServerPublicKey_spec_witness :
  fst (getServerPublicKey Toy.prims0 toy_key_net "https://api.example"
         (mkWorld toy_sender toy_t0 0 [])) = Ok "04ab" /\
  hasServerPublicKey (cl (snd (getServerPublicKey Toy.prims0 toy_key_net "https://api.example"
                                (mkWorld toy_sender toy_t0 0 [])))) = true.
Proof.
  pose proof (getServerPublicKey_spec Toy.prims0 toy_key_net "https://api.example"
                (mkWorld toy_sender toy_t0 0 [])) as Hs.
  cbv zeta in Hs. destruct Hs as [_ [_ [_ H]]].
  destruct (H [("serverPublicKey", JStr "04ab")] "04ab") as [H1 [_ H3]];
    [reflexivity | vm_compute; reflexivity | reflexivity | discriminate |].
  split; assumption.
Defined.

(** ** Response handling in [makeRequest] *)

Lemma catch_throw {A} (m : M A) (w : world) : catch m throw w = m w.
Proof. unfold catch. destruct (m w) as [[a | e] w']; reflexivity. Qed.

(** With a cached key, a successful [encrypt] and a success status, what
    [makeRequest] returns is what [handle_body] makes of the body, in the
    world after the GET. *)
Lemma makeRequest_reaches_body (P : prims) (rnd : nat -> string)
    (net : request -> response * Z) (endpoint : string) (data : list (string * json))
    (w : world) (base k env : string) (w1 : world) (resp : response) (dt : Z) :
  url_origin P endpoint = Some base ->
  serverPublicKey (cl w) = Some (JStr k) -> k <> "" ->
  encrypt P rnd data k w = (Ok env, w1) ->
  net (mkRequest "GET" (endpoint ++ "?ENC=" ++ encode_uri_component P env) None) = (resp, dt) ->
  resp_ok resp = true ->
  makeRequest P rnd net endpoint data w =
    handle_body P (resp_status resp) dt (resp_text resp)
      (mkWorld (cl w1) (clock w1 + dt) (seed w1)
         (trace w1 ++ [Ev_fetch (mkRequest "GET" (endpoint ++ "?ENC=" ++
                                   encode_uri_component P env) None)])).
Proof.
  intros Hu Hk Hk0 He Hn Hok.
  unfold makeRequest. rewrite catch_throw.
  unfold bind, lift_opt. rewrite Hu. cbn [ret get_client].
  unfold key_truthy. rewrite Hk. cbn [truthy].
  apply String.eqb_neq in Hk0. rewrite Hk0. cbn [negb ret].
  rewrite Hk. cbn [truthy]. rewrite Hk0. cbn [negb encrypt_value]. rewrite He.
  unfold now_ms, fetch. rewrite Hn. cbn [fst snd clock cl seed trace].
  rewrite Hok. cbn [negb].
  replace (clock w1 + dt - clock w1)%Z with dt by lia.
  reflexivity.
Qed.

(** Whatever [handle_body] returns carries exactly one of [responseData]
    and [responseText]: the data when parsing (and decrypting an [ENC]
    field) went through, the raw text when anything in the [try] threw. *)
Lemma handle_body_one_field (P : prims) (st dur : Z) (text : string) (w : world) :
  (exists d, fst (handle_body P st dur text w) = Ok (mkResult st dur (Some d) None)) \/
  fst (handle_body P st dur text w) = Ok (mkResult st dur None (Some text)).
Proof.
  unfold handle_body, catch, bind.
  destruct (lift_opt ESyntax (json_parse P text) w) as [[v | e] w1]; [| right; reflexivity].
  destruct (get_prop v "ENC" w1) as [[o | e] w2]; [| right; reflexivity].
  destruct o as [u |]; [| left; eexists; reflexivity].
  destruct (truthy u); [| left; eexists; reflexivity].
  destruct (decrypt_value P u w2) as [[d | e] w3]; [left; eexists; reflexivity | right; reflexivity].
Qed.

Lemma handle_body_decrypt_error (P : prims) (st dur : Z) (text : string) (w : world)
    (fs : list (string * json)) (s : string) (e : err) :
  json_parse P text = Some (JObj fs) ->
  obj_lookup fs "ENC" = Some (JStr s) -> s <> "" ->
  fst (decrypt P s w) = Err e ->
  fst (handle_body P st dur text w) = Ok (mkResult st dur None (Some text)).
Proof.
  intros Hj Hl Hs Hd.
  unfold handle_body, catch, bind, lift_opt. rewrite Hj. cbn [ret get_prop].
  rewrite Hl. cbn [truthy]. apply String.eqb_neq in Hs. rewrite Hs. cbn [negb decrypt_value].
  destruct (decrypt P s w) as [r w'] eqn:E. cbn [fst] in Hd. subst r. reflexivity.
Qed.

Lemma handle_body_null (P : prims) (st dur : Z) (text : string) (w : world) :
  json_parse P text = Some JNull ->
  handle_body P st dur text w = (Ok (mkResult st dur None (Some text)), w).
Proof.
  intros Hj. unfold handle_body, catch, bind, lift_opt. rewrite Hj. reflexivity.
Qed.

(** C2 fails: when the body of a successful response parses to an object
    whose [ENC] field is a non-empty string that [decrypt] rejects,
    [makeRequest] does not raise the decrypt error.  The [catch] placed
    around [JSON.parse] also encloses [this.decrypt(responseData.ENC)], so
    the call returns normally with the raw body as [responseText] and no
    [responseData]. *)
Theorem makeRequest_swallows_decrypt_error (P : prims) (rnd : nat -> string)
    (net : request -> response * Z) (endpoint : string) (data : list (string * json))
    (w : world) (base k env : string) (resp : response) (dt : Z)
    (fs : list (string * json)) (s : string) :
  url_origin P endpoint = Some base ->
  serverPublicKey (cl w) = Some (JStr k) -> k <> "" ->
  fst (encrypt P rnd data k w) = Ok env ->
  net (mkRequest "GET" (endpoint ++ "?ENC=" ++ encode_uri_component P env) None) = (resp, dt) ->
  resp_ok resp = true ->
  json_parse P (resp_text resp) = Some (JObj fs) ->
  obj_lookup fs "ENC" = Some (JStr s) -> s <> "" ->
  (forall w', exists e, fst (decrypt P s w') = Err e) ->
  fst (makeRequest P rnd net endpoint data w) =
    Ok (mkResult (resp_status resp) dt None (Some (resp_text resp))).
Proof.
  intros Hu Hk Hk0 He Hn Hok Hj Hl Hs Hd.
  destruct (encrypt P rnd data k w) as [r1 w1] eqn:E. cbn [fst] in He. subst r1.
  rewrite (makeRequest_reaches_body P rnd net endpoint data w base k env w1 resp dt
             Hu Hk Hk0 E Hn Hok).
  match goal with |- context [handle_body _ _ _ _ ?w2] => destruct (Hd w2) as [e He2] end.
  exact (handle_body_decrypt_error P _ _ _ _ fs s e Hj Hl Hs He2).
Qed.


Lemma makeRequest_swallows_decrypt_error_witness :
  fst (makeRequest Toy.prims0 toy_rnd toy_enc_net toy_endpoint []
         (mkWorld toy_cached toy_t0 0 [])) =
    Ok (mkResult 200 7 None (Some toy_enc_body)).
Proof.
  apply (makeRequest_swallows_decrypt_error Toy.prims0 toy_rnd toy_enc_net toy_endpoint []
           (mkWorld toy_cached toy_t0 0 []) toy_endpoint toy_peer_pub toy_env
           (mkResponse 200 toy_enc_body) 7 [("ENC", JStr "abc")] "abc");
    try reflexivity; try discriminate;
    [intros w'; exists (EFormat 1); reflexivity].
Defined.

(** C7 fails: a successful response whose body is the JSON text [null]
    parses, but [responseData.ENC] then throws a TypeError inside the
    [try], so [makeRequest] returns the body as [responseText] with no
    [responseData] although the body is JSON.  (Exactly one of the two
    fields is always set: [handle_body_one_field].) *)
Theorem makeRequest_null_body (P : prims) (rnd : nat -> string)
    (net : request -> response * Z) (endpoint : string) (data : list (string * json))
    (w : world) (base k env : string) (resp : response) (dt : Z) :
  url_origin P endpoint = Some base ->
  serverPublicKey (cl w) = Some (JStr k) -> k <> "" ->
  fst (encrypt P rnd data k w) = Ok env ->
  net (mkRequest "GET" (endpoint ++ "?ENC=" ++ encode_uri_component P env) None) = (resp, dt) ->
  resp_ok resp = true ->
  json_parse P (resp_text resp) = Some JNull ->
  fst (makeRequest P rnd net endpoint data w) =
    Ok (mkResult (resp_status resp) dt None (Some (resp_text resp))).
Proof.
  intros Hu Hk Hk0 He Hn Hok Hj.
  destruct (encrypt P rnd data k w) as [r1 w1] eqn:E. cbn [fst] in He. subst r1.
  rewrite (makeRequest_reaches_body P rnd net endpoint data w base k env w1 resp dt
             Hu Hk Hk0 E Hn Hok).
  rewrite handle_body_null by exact Hj. reflexivity.
Qed.


Lemma makeRequest_null_body_witness :
  Toy.print JNull = "null" /\
  fst (makeRequest Toy.prims0 toy_rnd toy_null_net toy_endpoint []
         (mkWorld toy_cached toy_t0 0 [])) =
    Ok (mkResult 200 7 None (Some "null")).
Proof.
  split; [reflexivity|].
  apply (makeRequest_null_body Toy.prims0 toy_rnd toy_null_net toy_endpoint []
           (mkWorld toy_cached toy_t0 0 []) toy_endpoint toy_peer_pub toy_env
           (mkResponse 200 (Toy.print JNull)) 7);
    try reflexivity; discriminate.
Defined.

(** X29: when the key server sends a truthy [serverPublicKey] that is not a
    string, [getServerPublicKey] caches it and then throws a TypeError from
    [.substring]; since the cached value is truthy, the next [makeRequest]
    skips the handshake and passes it to [encrypt], where, after the
    ephemeral key is generated, [Buffer.from(value, 'hex')] throws a
    TypeError for a value it cannot take (a number, for one); no HTTP call
    is made. *)
Theorem getServerPublicKey_non_string (P : prims) (rnd : nat -> string)
    (net : request -> response * Z) (baseUrl endpoint base : string)
    (data : list (string * json)) (w : world) (fs : list (string * json)) (v : json) :
  let resp := fst (net (handshake_request P baseUrl (cl w))) in
  let w1 := snd (getServerPublicKey P net baseUrl w) in
  resp_ok resp = true ->
  json_parse P (resp_text resp) = Some (JObj fs) ->
  obj_lookup fs "serverPublicKey" = Some v ->
  truthy v = true -> (forall k, v <> JStr k) ->
  url_origin P endpoint = Some base ->
  buffer_hex P v = None ->
  fst (getServerPublicKey P net baseUrl w) = Err ETypeError /\
  serverPublicKey (cl w1) = Some v /\ hasServerPublicKey (cl w1) = true /\
  makeRequest P rnd net endpoint data w1 =
    (Err ETypeError, mkWorld (cl w1) (clock w1) (S (seed w1)) (trace w1 ++ [Ev_keygen])%list).
Proof.
  intros resp w1 Hok Hj Hl Ht Hs Hu Hb.
  assert (Hg : exists c, getServerPublicKey P net baseUrl w = (Err ETypeError, mkWorld c (clock w + snd (net (handshake_request P baseUrl (cl w)))) (seed w) (trace w ++ [Ev_fetch (handshake_request P baseUrl (cl w))])%list) /\ c = set_serverPublicKey (cl w) v).
  { unfold getServerPublicKey, catch, bind, get_client, fetch.
    fold (handshake_request P baseUrl (cl w)).
    unfold resp in Hok, Hj.
    destruct (net (handshake_request P baseUrl (cl w))) as [r dt]. cbn [fst snd] in *.
    rewrite Hok. cbn [negb]. rewrite Hj. cbn [lift_opt ret get_prop]. rewrite Hl, Ht.
    cbn [negb bind get_client put_client cl clock seed trace].
    destruct v as [| b0 | z | s0 | l | fs1]; try (exfalso; exact (Hs s0 eq_refl));
      eexists; split; reflexivity. }
  destruct Hg as [c [Hg ->]].
  unfold w1. rewrite Hg. cbn [fst snd cl clock seed trace set_serverPublicKey serverPublicKey
                              hasServerPublicKey].
  split; [reflexivity |]. split; [reflexivity |]. split; [reflexivity |].
  unfold makeRequest. rewrite catch_throw. unfold bind, lift_opt. rewrite Hu.
  cbv beta iota zeta delta [ret get_client cl serverPublicKey key_truthy set_serverPublicKey].
  rewrite Ht. cbv beta iota delta [negb]. rewrite Ht. cbv beta iota delta [negb].
  destruct v as [| b0 | z | s0 | l | fs1]; try (exfalso; exact (Hs s0 eq_refl));
    unfold encrypt_value; rewrite Ht; cbv beta iota zeta delta [negb get_client fresh cl seed clock trace];
    unfold lift_opt; rewrite Hb; reflexivity.
Qed.

Lemma getServerPublicKey_non_string_witness :
  fst (getServerPublicKey Toy.prims0 toy_num_key_net "https://api.example"
         (mkWorld toy_sender toy_t0 0 [])) = Err ETypeError /\
  fst (makeRequest Toy.prims0 toy_rnd toy_num_key_net toy_endpoint []
         (snd (getServerPublicKey Toy.prims0 toy_num_key_net "https://api.example"
                 (mkWorld toy_sender toy_t0 0 [])))) = Err ETypeError.
Proof.
  destruct (getServerPublicKey_non_string Toy.prims0 toy_rnd toy_num_key_net
              "https://api.example" toy_endpoint toy_endpoint [] (mkWorld toy_sender toy_t0 0 [])
              [("serverPublicKey", JNum 123)] (JNum 123))
    as [H1 [_ [_ H4]]];
    [reflexivity | vm_compute; reflexivity | reflexivity | reflexivity
    | intros k; discriminate | reflexivity | reflexivity |].
  split; [exact H1 | rewrite H4; reflexivity].
Defined.

(** ** Frames of the whole client: the key pair and the HTTP calls *)

Lemma decrypt_text_keeps_client (P : prims) (text : string) : keeps_client (decrypt_text P text).
Proof. unfold decrypt_text. keeps. Qed.

Lemma keeps_keys_of_client {A} (m : M A) : keeps_client m -> keeps_keys m.
Proof. intros Hm w. unfold keys_of. rewrite Hm. reflexivity. Qed.

Lemma keeps_keys_bind {A B} (m : M A) (k : A -> M B) :
  keeps_keys m -> (forall a, keeps_keys (k a)) -> keeps_keys (bind m k).
Proof.
  intros Hm Hk w. unfold bind. specialize (Hm w).
  destruct (m w) as [[a | e] w'] eqn:E; simpl in *; [rewrite Hk; exact Hm | exact Hm].
Qed.

Lemma keeps_keys_catch {A} (m : M A) (h : err -> M A) :
  keeps_keys m -> (forall e, keeps_keys (h e)) -> keeps_keys (catch m h).
Proof.
  intros Hm Hh w. unfold catch. specialize (Hm w).
  destruct (m w) as [[a | e] w'] eqn:E; simpl in *; [exact Hm | rewrite Hh; exact Hm].
Qed.

Lemma keeps_keys_fetch (net : request -> response * Z) (r : request) : keeps_keys (fetch net r).
Proof. intros w. unfold fetch. destruct (net r). reflexivity. Qed.

Lemma keeps_keys_cache {A} (v : json) (m : M A) :
  keeps_keys m -> keeps_keys (c' <- get_client ;; put_client (set_serverPublicKey c' v) ;;; m).
Proof. intros Hm w. unfold bind, get_client, put_client. rewrite Hm. reflexivity. Qed.

Ltac keys_kept :=
  repeat first
    [ progress unfold get_prop, decrypt_value
    | apply keeps_keys_cache
    | apply keeps_keys_fetch
    | apply keeps_keys_of_client;
      solve [ apply encrypt_keeps_client | apply encrypt_value_keeps_client
            | apply decrypt_keeps_client
            | apply decrypt_text_keeps_client | keeps ]
    | apply keeps_keys_catch; [| intros]
    | apply keeps_keys_bind; [| intros]
    | match goal with
      | |- keeps_keys (if ?b then _ else _) => destruct b
      | |- keeps_keys (match ?x with _ => _ end) => destruct x
      | |- keeps_keys (let _ := _ in _) => cbv zeta
      end ].

Lemma getServerPublicKey_keeps_keys (P : prims) (net : request -> response * Z) (b : string) :
  keeps_keys (getServerPublicKey P net b).
Proof. unfold getServerPublicKey, get_prop. keys_kept. Qed.

Lemma handle_body_keeps_keys (P : prims) (st dur : Z) (text : string) :
  keeps_keys (handle_body P st dur text).
Proof. unfold handle_body, decrypt_value, get_prop. keys_kept. Qed.

(** X1: [makeRequest] never changes the client's curve or long-term key
    pair, whatever the endpoint, the data and the server answer; at most it
    caches a server key. *)
Lemma makeRequest_keeps_keys (P : prims) (rnd : nat -> string) (net : request -> response * Z)
    (endpoint : string) (data : list (string * json)) :
  keeps_keys (makeRequest P rnd net endpoint data).
Proof.
  unfold makeRequest.
  keys_kept.
Qed.

Lemma fetches_app (l1 l2 : list event) : fetches (l1 ++ l2) = (fetches l1 ++ fetches l2)%list.
Proof. apply filter_app. Qed.

Lemma quiet_ret {A} (a : A) : quiet (ret a).
Proof. intros w. reflexivity. Qed.
Lemma quiet_throw {A} (e : err) : quiet (@throw A e).
Proof. intros w. reflexivity. Qed.
Lemma quiet_get : quiet get_client.
Proof. intros w. reflexivity. Qed.
Lemma quiet_now : quiet now_ms.
Proof. intros w. reflexivity. Qed.
Lemma quiet_put (c : client) : quiet (put_client c).
Proof. intros w. reflexivity. Qed.
Lemma quiet_lift {A} (e : err) (o : option A) : quiet (lift_opt e o).
Proof. destruct o; intros w; reflexivity. Qed.
Lemma quiet_emit (e : event) : is_fetch e = false -> quiet (emit e).
Proof.
  intros He w. cbn [emit snd trace]. rewrite fetches_app. cbn. rewrite He, app_nil_r.
  reflexivity.
Qed.
Lemma quiet_fresh (rnd : nat -> string) (e : event) : is_fetch e = false -> quiet (fresh rnd e).
Proof.
  intros He w. cbn [fresh snd trace]. rewrite fetches_app. cbn. rewrite He, app_nil_r.
  reflexivity.
Qed.
Lemma quiet_bind {A B} (m : M A) (k : A -> M B) :
  quiet m -> (forall a, quiet (k a)) -> quiet (bind m k).
Proof.
  intros Hm Hk w. unfold bind. specialize (Hm w).
  destruct (m w) as [[a | e] w'] eqn:E; simpl in *; [rewrite Hk; exact Hm | exact Hm].
Qed.
Lemma quiet_catch {A} (m : M A) (h : err -> M A) :
  quiet m -> (forall e, quiet (h e)) -> quiet (catch m h).
Proof.
  intros Hm Hh w. unfold catch. specialize (Hm w).
  destruct (m w) as [[a | e] w'] eqn:E; simpl in *; [exact Hm | rewrite Hh; exact Hm].
Qed.

Ltac no_fetch :=
  repeat first
    [ progress unfold get_prop, decrypt_value
    | apply quiet_ret | apply quiet_throw | apply quiet_get | apply quiet_now
    | apply quiet_put | apply quiet_lift
    | apply quiet_emit; reflexivity
    | apply quiet_fresh; reflexivity
    | apply quiet_catch; [| intros]
    | apply quiet_bind; [| intros]
    | match goal with
      | |- quiet (if ?b then _ else _) => destruct b
      | |- quiet (match ?x with _ => _ end) => destruct x
      | |- quiet (let _ := _ in _) => cbv zeta
      end ].

Lemma encrypt_quiet (P : prims) (rnd : nat -> string) (data : list (string * json)) (k : string) :
  quiet (encrypt P rnd data k).
Proof. unfold encrypt. no_fetch. Qed.

Lemma decrypt_text_quiet (P : prims) (text : string) : quiet (decrypt_text P text).
Proof. unfold decrypt_text. no_fetch. Qed.

Lemma handle_body_quiet (P : prims) (st dur : Z) (text : string) :
  quiet (handle_body P st dur text).
Proof.
  unfold handle_body. no_fetch; first [apply decrypt_text_quiet | unfold decrypt; apply decrypt_text_quiet].
Qed.

(** The world after the key handshake: one POST recorded and its time
    added.  On success the key is cached, and it is not empty; on failure
    the client is as it was, unless the server sent a truthy value that is
    not a string: that is cached before [.substring] throws. *)
Lemma getServerPublicKey_world (P : prims) (net : request -> response * Z) (b : string) (w : world) :
  let req := handshake_request P b (cl w) in
  exists c,
    snd (getServerPublicKey P net b w) =
      mkWorld c (clock w + snd (net req)) (seed w) (trace w ++ [Ev_fetch req])%list /\
    match fst (getServerPublicKey P net b w) with
    | Ok k => c = set_serverPublicKey (cl w) (JStr k) /\ k <> ""
    | Err e =>
        c = cl w \/
        (e = ETypeError /\ exists v, truthy v = true /\ (forall k, v <> JStr k) /\
                                    c = set_serverPublicKey (cl w) v)
    end.
Proof.
  intros req.
  unfold getServerPublicKey, catch, bind, get_client, fetch.
  fold (handshake_request P b (cl w)). fold req.
  destruct (net req) as [resp dt] eqn:Hn. cbn [fst snd].
  destruct (resp_ok resp); cbn [negb throw ret fst snd cl clock seed trace];
    [| eexists; split; [reflexivity | left; reflexivity]].
  destruct (json_parse P (resp_text resp)) as [v |]; cbn [lift_opt throw ret fst snd];
    [| eexists; split; [reflexivity | left; reflexivity]].
  destruct v as [| b0 | z | s | l | fs]; cbn [get_prop throw ret fst snd];
    try (eexists; split; [reflexivity | left; reflexivity]).
  destruct (obj_lookup fs "serverPublicKey") as [v |]; cbn [throw ret fst snd];
    [| eexists; split; [reflexivity | left; reflexivity]].
  destruct (truthy v) eqn:Et; cbn [negb throw fst snd];
    [| eexists; split; [reflexivity | left; reflexivity]].
  cbn [bind put_client get_client cl clock seed trace fst snd].
  destruct v as [| b0 | z | s | l | fs1]; cbn [throw ret fst snd];
    [discriminate | | | | |].
  - eexists; split; [reflexivity | right; split; [reflexivity |]].
    eexists; split; [exact Et | split; [intros k; discriminate | reflexivity]].
  - eexists; split; [reflexivity | right; split; [reflexivity |]].
    eexists; split; [exact Et | split; [intros k; discriminate | reflexivity]].
  - eexists; split; [reflexivity | split; [reflexivity |]].
    cbn [truthy] in Et. apply negb_true_iff, String.eqb_neq in Et. exact Et.
  - eexists; split; [reflexivity | right; split; [reflexivity |]].
    eexists; split; [exact Et | split; [intros k; discriminate | reflexivity]].
  - eexists; split; [reflexivity | right; split; [reflexivity |]].
    eexists; split; [exact Et | split; [intros k; discriminate | reflexivity]].
Qed.

(** ** More of [makeRequest] *)

(** The GET stage of [makeRequest] with a usable cached key. *)
Lemma makeRequest_get (P : prims) (rnd : nat -> string)
    (net : request -> response * Z) (endpoint : string) (data : list (string * json))
    (w : world) (base k env : string) (w1 : world) (resp : response) (dt : Z) :
  url_origin P endpoint = Some base ->
  serverPublicKey (cl w) = Some (JStr k) -> k <> "" ->
  encrypt P rnd data k w = (Ok env, w1) ->
  net (mkRequest "GET" (endpoint ++ "?ENC=" ++ encode_uri_component P env) None) = (resp, dt) ->
  let w2 := mkWorld (cl w1) (clock w1 + dt) (seed w1)
              (trace w1 ++ [Ev_fetch (mkRequest "GET" (endpoint ++ "?ENC=" ++
                                        encode_uri_component P env) None)])%list in
  makeRequest P rnd net endpoint data w =
    if resp_ok resp then handle_body P (resp_status resp) dt (resp_text resp) w2
    else (Err (EHttp (resp_status resp) (resp_text resp)), w2).
Proof.
  intros Hu Hk Hk0 He Hn w2.
  unfold makeRequest. rewrite catch_throw.
  unfold bind, lift_opt. rewrite Hu. cbn [ret get_client].
  unfold key_truthy. rewrite Hk. cbn [truthy].
  apply String.eqb_neq in Hk0. rewrite Hk0. cbn [negb ret].
  rewrite Hk. cbn [truthy]. rewrite Hk0. cbn [negb encrypt_value]. rewrite He.
  unfold now_ms, fetch. rewrite Hn. cbn [fst snd clock cl seed trace].
  replace (clock w1 + dt - clock w1)%Z with dt by lia.
  destruct (resp_ok resp); reflexivity.
Qed.

(** X2: an endpoint that [new URL] rejects fails with its TypeError before
    anything else happens. *)
Theorem makeRequest_bad_url (P : prims) (rnd : nat -> string)
    (net : request -> response * Z) (endpoint : string) (data : list (string * json))
    (w : world) :
  url_origin P endpoint = None ->
  makeRequest P rnd net endpoint data w = (Err EUrl, w).
Proof. intros Hu. unfold makeRequest. rewrite catch_throw. unfold bind, lift_opt. rewrite Hu. reflexivity. Qed.

(** X3: with no usable cached key ([null] or [''], both falsy), [makeRequest]
    first runs the handshake against the origin of the endpoint; its error
    is the result, and after a success the call goes on exactly as with the
    cached key the handshake stored. *)
Theorem makeRequest_handshake_first (P : prims) (rnd : nat -> string)
    (net : request -> response * Z) (endpoint : string) (data : list (string * json))
    (w : world) (base : string) :
  url_origin P endpoint = Some base ->
  key_truthy (serverPublicKey (cl w)) = false ->
  makeRequest P rnd net endpoint data w =
    match getServerPublicKey P net base w with
    | (Ok _, w1) => makeRequest P rnd net endpoint data w1
    | (Err e, w1) => (Err e, w1)
    end.
Proof.
  intros Hu Hk.
  destruct (getServerPublicKey_world P net base w) as [c [Hw Hc]].
  unfold makeRequest. rewrite catch_throw. unfold lift_opt. rewrite Hu.
  unfold bind, ret, get_client. cbv beta iota. rewrite Hk. cbn [negb].
  destruct (getServerPublicKey P net base w) as [[k | e] w1] eqn:E; [| reflexivity].
  cbn [fst snd] in Hw, Hc. destruct Hc as [-> Hne]. subst w1.
  rewrite catch_throw.
  cbv beta iota delta [cl set_serverPublicKey serverPublicKey key_truthy truthy].
  apply String.eqb_neq in Hne. repeat (rewrite Hne; cbv beta iota delta [negb]). reflexivity.
Qed.

(** X4: a response outside 200-299 makes [makeRequest] fail with its status
    and body text, right after the GET: the body is not parsed and nothing
    is decrypted. *)
Theorem makeRequest_http_error (P : prims) (rnd : nat -> string)
    (net : request -> response * Z) (endpoint : string) (data : list (string * json))
    (w : world) (base k env : string) (w1 : world) (resp : response) (dt : Z) :
  url_origin P endpoint = Some base ->
  serverPublicKey (cl w) = Some (JStr k) -> k <> "" ->
  encrypt P rnd data k w = (Ok env, w1) ->
  net (mkRequest "GET" (endpoint ++ "?ENC=" ++ encode_uri_component P env) None) = (resp, dt) ->
  resp_ok resp = false ->
  makeRequest P rnd net endpoint data w =
    (Err (EHttp (resp_status resp) (resp_text resp)),
     mkWorld (cl w1) (clock w1 + dt) (seed w1)
       (trace w1 ++ [Ev_fetch (mkRequest "GET" (endpoint ++ "?ENC=" ++
                                 encode_uri_component P env) None)])%list) /\
  err_message (EHttp (resp_status resp) (resp_text resp)) =
    "error " ++ Z_to_dec (resp_status resp) ++ ": " ++ resp_text resp.
Proof.
  intros Hu Hk Hk0 He Hn Hok. split; [| reflexivity].
  rewrite (makeRequest_get P rnd net endpoint data w base k env w1 resp dt Hu Hk Hk0 He Hn).
  rewrite Hok. reflexivity.
Qed.

(** X5: a body that [JSON.parse] rejects is returned as [responseText],
    with the status and the time the GET took. *)
Theorem handle_body_not_json (P : prims) (st dur : Z) (text : string) (w : world) :
  json_parse P text = None ->
  handle_body P st dur text w = (Ok (mkResult st dur None (Some text)), w).
Proof. intros Hj. unfold handle_body, catch, bind, lift_opt. rewrite Hj. reflexivity. Qed.

(** X6: a JSON body that is not [null] and has no truthy [ENC] field (no
    such field, or [''], [0], [false], [null]; or a body that is not an
    object) is returned whole as [responseData], nothing decrypted. *)
Theorem handle_body_plain_json (P : prims) (st dur : Z) (text : string) (w : world) (v : json) :
  json_parse P text = Some v ->
  v <> JNull ->
  (forall fs, v = JObj fs -> data_truthy (obj_lookup fs "ENC") = false) ->
  handle_body P st dur text w = (Ok (mkResult st dur (Some v) None), w).
Proof.
  intros Hj Hn Hf. unfold handle_body, catch, bind, lift_opt. rewrite Hj. cbn [ret].
  destruct v as [| b | z | s | l | fs]; try reflexivity; [contradiction |].
  specialize (Hf fs eq_refl). cbn [get_prop ret].
  destruct (obj_lookup fs "ENC") as [u |]; [| reflexivity].
  cbn [data_truthy] in Hf. rewrite Hf. reflexivity.
Qed.

(** X7: when the body is an object whose [ENC] field is a non-empty string
    that [decrypt] opens, [responseData] is the decrypted value. *)
Theorem handle_body_decrypted (P : prims) (st dur : Z) (text : string) (w w' : world)
    (fs : list (string * json)) (s : string) (v : json) :
  json_parse P text = Some (JObj fs) ->
  obj_lookup fs "ENC" = Some (JStr s) -> s <> "" ->
  decrypt P s w = (Ok v, w') ->
  handle_body P st dur text w = (Ok (mkResult st dur (Some v) None), w').
Proof.
  intros Hj Hl Hs Hd. unfold handle_body, catch, bind, lift_opt. rewrite Hj. cbn [ret get_prop].
  rewrite Hl. cbn [truthy]. apply String.eqb_neq in Hs. rewrite Hs. cbn [negb decrypt_value].
  rewrite Hd. reflexivity.
Qed.

Lemma makeRequest_bad_url_witness :
  makeRequest toy_strict toy_rnd toy_enc_net "api.example/query" []
    (mkWorld toy_cached toy_t0 0 []) = (Err EUrl, mkWorld toy_cached toy_t0 0 []).
Proof. apply makeRequest_bad_url. reflexivity. Defined.

Lemma makeRequest_handshake_first_witness :
  makeRequest Toy.prims0 toy_rnd toy_data_net toy_endpoint [] (mkWorld toy_sender toy_t0 0 []) =
    match getServerPublicKey Toy.prims0 toy_data_net toy_endpoint (mkWorld toy_sender toy_t0 0 []) with
    | (Ok _, w1) => makeRequest Toy.prims0 toy_rnd toy_data_net toy_endpoint [] w1
    | (Err e, w1) => (Err e, w1)
    end.
Proof. apply makeRequest_handshake_first; reflexivity. Defined.

Lemma makeRequest_http_error_witness :
  fst (makeRequest Toy.prims0 toy_rnd toy_fail_net toy_endpoint [] (mkWorld toy_cached toy_t0 0 [])) =
    Err (EHttp 503 "busy").
Proof.
  destruct (makeRequest_http_error Toy.prims0 toy_rnd toy_fail_net toy_endpoint []
              (mkWorld toy_cached toy_t0 0 []) toy_endpoint toy_peer_pub toy_env
              (snd (encrypt Toy.prims0 toy_rnd [] toy_peer_pub (mkWorld toy_cached toy_t0 0 [])))
              (mkResponse 503 "busy") 4) as [Hm _];
    [reflexivity | reflexivity | discriminate | vm_compute; reflexivity | reflexivity
    | reflexivity | rewrite Hm; reflexivity].
Defined.

Lemma handle_body_not_json_witness :
  handle_body Toy.prims0 200 7 "not json" (mkWorld toy_cached toy_t0 0 []) =
    (Ok (mkResult 200 7 None (Some "not json")), mkWorld toy_cached toy_t0 0 []).
Proof. apply handle_body_not_json. reflexivity. Defined.

Lemma handle_body_plain_json_witness :
  handle_body Toy.prims0 200 7 toy_data_body (mkWorld toy_cached toy_t0 0 []) =
    (Ok (mkResult 200 7 (Some (JObj [("rows", JNum 2)])) None), mkWorld toy_cached toy_t0 0 []).
Proof.
  apply handle_body_plain_json; [reflexivity | discriminate |].
  intros fs Hf. injection Hf as <-. reflexivity.
Defined.

Lemma handle_body_decrypted_witness :
  fst (handle_body Toy.prims0 200 7 toy_dec_body (mkWorld toy_receiver toy_t0 0 [])) =
    Ok (mkResult 200 7 (Some (JObj [("clientPublicKey", JStr "sender-pub")])) None).
Proof.
  rewrite (handle_body_decrypted Toy.prims0 200 7 toy_dec_body (mkWorld toy_receiver toy_t0 0 [])
             (snd (decrypt Toy.prims0 toy_env (mkWorld toy_receiver toy_t0 0 [])))
             [("ENC", JStr toy_env)] toy_env (JObj [("clientPublicKey", JStr "sender-pub")]));
    [reflexivity | vm_compute; reflexivity | reflexivity | vm_compute; discriminate
    | vm_compute; reflexivity].
Defined.

(** ** More of [decrypt] and [encrypt] *)

(** What [decrypt] does once the HMAC has matched. *)
Lemma decrypt_open_stage (P : prims) (bundle : string) (w : world) (t : Z) (sec : string) :
  let parts := split_colon (b64dec P bundle) in
  length parts = 7%nat ->
  parse_int10 (nth 5 parts "") = Some t ->
  (Z.abs (t * 1000) <= 8640000000000000)%Z ->
  (clock w / 1000 - t <= 300)%Z ->
  ecdh_secret P (curve (cl w)) (privateKey (cl w)) (nth 1 parts "") = Some sec ->
  b64enc P (hmac_sha256 P (hmac_key (sha256 P sec))
              (auth_data (nth 0 parts "") (nth 1 parts "") (nth 2 parts "")
                         (nth 3 parts "") (nth 4 parts "") (nth 5 parts "")))
    = nth 6 parts "" ->
  let w' := mkWorld (cl w) (clock w) (seed w)
              (trace w ++ [Ev_ecdh; Ev_hash; Ev_hmac; Ev_decipher])%list in
  decrypt P bundle w =
    match gcm_open P (aes_key (sha256 P sec)) (b64dec P (nth 2 parts ""))
            (b64dec P (nth 3 parts "")) (b64dec P (nth 4 parts "")) with
    | None => (Err ECrypto, w')
    | Some pt => (Ok (match json_parse P pt with Some v => v | None => JStr pt end), w')
    end.
Proof.
  intros parts H7 Ht Hd Hw Hs Hm w'.
  unfold decrypt, decrypt_text. fold parts.
  rewrite H7. cbn [Nat.eqb negb]. rewrite Ht. unfold date_ok.
  replace (Z.abs (t * 1000) <=? 8640000000000000)%Z with true
    by (symmetry; apply Z.leb_le; exact Hd).
  cbn [negb bind now_ms]. unfold expired.
  replace (clock w / 1000 - t >? 300)%Z with false
    by (symmetry; rewrite Z.gtb_ltb; apply Z.ltb_ge; lia).
  cbn [bind get_client emit lift_opt cl clock seed trace]. rewrite Hs.
  cbn [bind ret emit lift_opt cl clock seed trace].
  rewrite Hm, String.eqb_refl. cbn [negb bind emit cl clock seed trace].
  rewrite <- !app_assoc. cbn [app]. fold w'.
  destruct (gcm_open P _ _ _ _) as [pt |]; cbn [lift_opt ret throw bind]; [| reflexivity].
  destruct (json_parse P pt); reflexivity.
Qed.

(** X8: after the HMAC has matched, a plaintext that is not JSON is returned
    as the raw text; the AES-GCM decryption is the last operation. *)
Theorem decrypt_raw_text (P : prims) (bundle : string) (w : world) (t : Z) (sec pt : string) :
  let parts := split_colon (b64dec P bundle) in
  length parts = 7%nat ->
  parse_int10 (nth 5 parts "") = Some t ->
  (Z.abs (t * 1000) <= 8640000000000000)%Z ->
  (clock w / 1000 - t <= 300)%Z ->
  ecdh_secret P (curve (cl w)) (privateKey (cl w)) (nth 1 parts "") = Some sec ->
  b64enc P (hmac_sha256 P (hmac_key (sha256 P sec))
              (auth_data (nth 0 parts "") (nth 1 parts "") (nth 2 parts "")
                         (nth 3 parts "") (nth 4 parts "") (nth 5 parts "")))
    = nth 6 parts "" ->
  gcm_open P (aes_key (sha256 P sec)) (b64dec P (nth 2 parts ""))
    (b64dec P (nth 3 parts "")) (b64dec P (nth 4 parts "")) = Some pt ->
  json_parse P pt = None ->
  decrypt P bundle w =
    (Ok (JStr pt), mkWorld (cl w) (clock w) (seed w)
                     (trace w ++ [Ev_ecdh; Ev_hash; Ev_hmac; Ev_decipher])%list).
Proof.
  intros parts H7 Ht Hd Hw Hs Hm Hg Hj.
  rewrite (decrypt_open_stage P bundle w t sec H7 Ht Hd Hw Hs Hm).
  fold parts. rewrite Hg, Hj. reflexivity.
Qed.

(** X9: after the HMAC has matched, a ciphertext or tag that AES-GCM
    rejects makes [decrypt] throw the cipher's error. *)
Theorem decrypt_gcm_failure (P : prims) (bundle : string) (w : world) (t : Z) (sec : string) :
  let parts := split_colon (b64dec P bundle) in
  length parts = 7%nat ->
  parse_int10 (nth 5 parts "") = Some t ->
  (Z.abs (t * 1000) <= 8640000000000000)%Z ->
  (clock w / 1000 - t <= 300)%Z ->
  ecdh_secret P (curve (cl w)) (privateKey (cl w)) (nth 1 parts "") = Some sec ->
  b64enc P (hmac_sha256 P (hmac_key (sha256 P sec))
              (auth_data (nth 0 parts "") (nth 1 parts "") (nth 2 parts "")
                         (nth 3 parts "") (nth 4 parts "") (nth 5 parts "")))
    = nth 6 parts "" ->
  gcm_open P (aes_key (sha256 P sec)) (b64dec P (nth 2 parts ""))
    (b64dec P (nth 3 parts "")) (b64dec P (nth 4 parts "")) = None ->
  decrypt P bundle w =
    (Err ECrypto, mkWorld (cl w) (clock w) (seed w)
                    (trace w ++ [Ev_ecdh; Ev_hash; Ev_hmac; Ev_decipher])%list).
Proof.
  intros parts H7 Ht Hd Hw Hs Hm Hg.
  rewrite (decrypt_open_stage P bundle w t sec H7 Ht Hd Hw Hs Hm).
  fold parts. rewrite Hg. reflexivity.
Qed.

(** X10: an ephemeral key that the local private key cannot do ECDH with makes
    [decrypt] throw right at [computeSecret]: no key derivation, no HMAC. *)
Theorem decrypt_bad_ephemeral_key (P : prims) (bundle : string) (w : world) (t : Z) :
  let parts := split_colon (b64dec P bundle) in
  length parts = 7%nat ->
  parse_int10 (nth 5 parts "") = Some t ->
  (Z.abs (t * 1000) <= 8640000000000000)%Z ->
  (clock w / 1000 - t <= 300)%Z ->
  ecdh_secret P (curve (cl w)) (privateKey (cl w)) (nth 1 parts "") = None ->
  decrypt P bundle w =
    (Err ECrypto, mkWorld (cl w) (clock w) (seed w) (trace w ++ [Ev_ecdh])%list).
Proof.
  intros parts H7 Ht Hd Hw Hs.
  unfold decrypt, decrypt_text. fold parts.
  rewrite H7. cbn [Nat.eqb negb]. rewrite Ht. unfold date_ok.
  replace (Z.abs (t * 1000) <=? 8640000000000000)%Z with true
    by (symmetry; apply Z.leb_le; exact Hd).
  cbn [negb bind now_ms]. unfold expired.
  replace (clock w / 1000 - t >? 300)%Z with false
    by (symmetry; rewrite Z.gtb_ltb; apply Z.ltb_ge; lia).
  cbn [bind get_client emit lift_opt cl clock seed trace]. rewrite Hs. reflexivity.
Qed.

Lemma decrypt_raw_text_witness :
  decrypt Toy.prims0 (toy_sealed "16iv") (mkWorld toy_receiver toy_t0 0 []) =
    (Ok (JStr "hello"), mkWorld toy_receiver toy_t0 0 [Ev_ecdh; Ev_hash; Ev_hmac; Ev_decipher]).
Proof.
  apply (decrypt_raw_text Toy.prims0 (toy_sealed "16iv") (mkWorld toy_receiver toy_t0 0 [])
           1700000000%Z "16" "hello");
    try reflexivity; vm_compute; congruence.
Defined.

Lemma decrypt_gcm_failure_witness :
  decrypt Toy.prims0 (toy_sealed "forged") (mkWorld toy_receiver toy_t0 0 []) =
    (Err ECrypto, mkWorld toy_receiver toy_t0 0 [Ev_ecdh; Ev_hash; Ev_hmac; Ev_decipher]).
Proof.
  apply (decrypt_gcm_failure Toy.prims0 (toy_sealed "forged") (mkWorld toy_receiver toy_t0 0 [])
           1700000000%Z "16");
    try reflexivity; vm_compute; congruence.
Defined.

Lemma decrypt_bad_ephemeral_key_witness :
  decrypt toy_strict toy_no_eph (mkWorld toy_receiver toy_t0 0 []) =
    (Err ECrypto, mkWorld toy_receiver toy_t0 0 [Ev_ecdh]).
Proof.
  apply (decrypt_bad_ephemeral_key toy_strict toy_no_eph (mkWorld toy_receiver toy_t0 0 [])
           1700000000%Z);
    try reflexivity; vm_compute; congruence.
Defined.

(** The envelope [encrypt] builds once ECDH with the server key succeeds. *)
Lemma encrypt_ok_shape (P : prims) (rnd : nat -> string) (data : list (string * json))
    (spk : string) (w : world) (sec : string) :
  spk <> "" ->
  ecdh_secret P (curve (cl w)) (rnd (seed w)) spk = Some sec ->
  let c := cl w in
  let dk := sha256 P sec in
  let iv := rnd (S (seed w)) in
  let sent := json_stringify P (JObj (obj_set data "clientPublicKey" (JStr (publicKey c)))) in
  let ct := fst (gcm_seal P (aes_key dk) iv sent) in
  let tag := snd (gcm_seal P (aes_key dk) iv sent) in
  let f0 := substring 0 8 (hex P (sha256 P (publicKey c))) in
  let f1 := ecdh_pub P (curve c) (rnd (seed w)) in
  let f5 := Z_to_dec (clock w / 1000) in
  let a := auth_data f0 f1 (b64enc P iv) (b64enc P ct) (b64enc P tag) f5 in
  encrypt P rnd data spk w =
    (Ok (b64enc P (a ++ ":" ++ b64enc P (hmac_sha256 P (hmac_key dk) a))),
     mkWorld (cl w) (clock w) (S (S (seed w)))
       (trace w ++ [Ev_keygen; Ev_ecdh; Ev_hash; Ev_random; Ev_cipher; Ev_hmac])%list).
Proof.
  intros Hne Hs c dk iv sent ct tag f0 f1 f5 a.
  unfold encrypt. apply String.eqb_neq in Hne. rewrite Hne.
  cbn [bind get_client fresh emit lift_opt now_ms ret fst snd cl seed clock trace].
  rewrite Hs.
  cbn [bind get_client fresh emit lift_opt now_ms ret fst snd cl seed clock trace].
  change (gcm_seal P (aes_key (sha256 P sec)) (rnd (S (seed w)))
            (json_stringify P (JObj (obj_set data "clientPublicKey" (JStr (publicKey (cl w)))))))
    with (gcm_seal P (aes_key dk) iv sent).
  rewrite (surjective_pairing (gcm_seal P (aes_key dk) iv sent)).
  cbn [bind get_client fresh emit lift_opt now_ms ret fst snd cl seed clock trace].
  rewrite <- !app_assoc. reflexivity.
Qed.

(** X11: [encrypt] to a key ECDH accepts yields a base64 envelope of seven
    colon-free fields: the first 8 hex digits of SHA-256 of the sender's
    public key, the ephemeral public key, base64 IV, ciphertext and tag of
    the payload with [clientPublicKey], the time in whole seconds (which
    [parseInt] reads back), and the base64 HMAC of the first six fields
    joined by colons. *)
Theorem encrypt_envelope_fields (P : prims) (L : prims_laws P) (rnd : nat -> string)
    (data : list (string * json)) (spk : string) (w : world) (sec : string) :
  spk <> "" ->
  ecdh_secret P (curve (cl w)) (rnd (seed w)) spk = Some sec ->
  let c := cl w in
  let dk := sha256 P sec in
  let iv := rnd (S (seed w)) in
  let sent := json_stringify P (JObj (obj_set data "clientPublicKey" (JStr (publicKey c)))) in
  let ct := fst (gcm_seal P (aes_key dk) iv sent) in
  let tag := snd (gcm_seal P (aes_key dk) iv sent) in
  let f0 := substring 0 8 (hex P (sha256 P (publicKey c))) in
  let f1 := ecdh_pub P (curve c) (rnd (seed w)) in
  let f5 := Z_to_dec (clock w / 1000) in
  exists env,
    fst (encrypt P rnd data spk w) = Ok env /\
    split_colon (b64dec P env) =
      [f0; f1; b64enc P iv; b64enc P ct; b64enc P tag; f5;
       b64enc P (hmac_sha256 P (hmac_key dk)
                   (auth_data f0 f1 (b64enc P iv) (b64enc P ct) (b64enc P tag) f5))] /\
    parse_int10 f5 = Some (clock w / 1000)%Z.
Proof.
  intros Hne Hs c dk iv sent ct tag f0 f1 f5.
  rewrite (encrypt_ok_shape P rnd data spk w sec Hne Hs). cbv zeta.
  eexists. split; [reflexivity|]. split; [| apply parse_int10_Z_to_dec].
  rewrite (b64_roundtrip P L).
  apply split_envelope; try apply (b64_no_colon P L); try apply (pub_no_colon P L);
    try apply Z_to_dec_no_colon;
    apply has_colon_substring; apply (hex_no_colon P L).
Qed.

(** X12: a server key ECDH rejects makes [encrypt] throw at [computeSecret],
    after drawing the ephemeral key and before any hashing or encryption. *)
Theorem encrypt_bad_server_key (P : prims) (rnd : nat -> string)
    (data : list (string * json)) (spk : string) (w : world) :
  spk <> "" ->
  ecdh_secret P (curve (cl w)) (rnd (seed w)) spk = None ->
  encrypt P rnd data spk w =
    (Err ECrypto, mkWorld (cl w) (clock w) (S (seed w)) (trace w ++ [Ev_keygen; Ev_ecdh])%list).
Proof.
  intros Hne Hs. unfold encrypt. apply String.eqb_neq in Hne. rewrite Hne.
  cbn [bind get_client fresh emit lift_opt now_ms ret fst snd cl seed clock trace].
  rewrite Hs. cbn [throw]. rewrite <- app_assoc. reflexivity.
Qed.

(** X13: an envelope [encrypt] made is rejected as expired by a receiver
    whose clock, in whole seconds, is more than 300 past the sender's, as
    long as the time stamp is a valid [Date]; nothing else is tried. *)
Theorem encrypt_then_expired (P : prims) (L : prims_laws P) (rnd : nat -> string)
    (data : list (string * json)) (spk : string) (ws wr : world) (sec : string) :
  spk <> "" ->
  ecdh_secret P (curve (cl ws)) (rnd (seed ws)) spk = Some sec ->
  (Z.abs (clock ws / 1000 * 1000) <= 8640000000000000)%Z ->
  (clock wr / 1000 - clock ws / 1000 > 300)%Z ->
  match fst (encrypt P rnd data spk ws) with
  | Ok env => decrypt P env wr = (Err EExpired, wr)
  | Err _ => False
  end.
Proof.
  intros Hne Hs Hd Hx.
  rewrite (encrypt_ok_shape P rnd data spk ws sec Hne Hs). cbv zeta. cbn [fst].
  unfold decrypt. rewrite (b64_roundtrip P L). unfold decrypt_text.
  rewrite split_envelope; try apply (b64_no_colon P L); try apply (pub_no_colon P L);
    try apply Z_to_dec_no_colon;
    try (apply has_colon_substring; apply (hex_no_colon P L)).
  cbn [length Nat.eqb negb nth].
  rewrite parse_int10_Z_to_dec. unfold date_ok.
  replace (Z.abs (clock ws / 1000 * 1000) <=? 8640000000000000)%Z with true
    by (symmetry; apply Z.leb_le; exact Hd).
  cbn [negb bind now_ms]. unfold expired.
  replace (clock wr / 1000 - clock ws / 1000 >? 300)%Z with true
    by (symmetry; rewrite Z.gtb_ltb; apply Z.ltb_lt; lia).
  reflexivity.
Qed.

Lemma encrypt_envelope_fields_witness :
  exists env,
    fst (encrypt Toy.prims0 toy_rnd [] toy_peer_pub (mkWorld toy_sender toy_t0 0 [])) = Ok env /\
    length (split_colon (b64dec Toy.prims0 env)) = 7%nat.
Proof.
  destruct (encrypt_envelope_fields Toy.prims0 toy_laws toy_rnd [] toy_peer_pub
              (mkWorld toy_sender toy_t0 0 []) "26") as [env [H1 [H2 _]]];
    [discriminate | reflexivity |].
  exists env. split; [exact H1 | rewrite H2; reflexivity].
Defined.

Lemma encrypt_bad_server_key_witness :
  encrypt toy_points toy_rnd [] "zz" (mkWorld toy_sender toy_t0 0 []) =
    (Err ECrypto, mkWorld toy_sender toy_t0 1 [Ev_keygen; Ev_ecdh]).
Proof. apply (encrypt_bad_server_key toy_points); [discriminate | reflexivity]. Defined.

Lemma encrypt_then_expired_witness :
  match fst (encrypt Toy.prims0 toy_rnd [] toy_peer_pub (mkWorld toy_sender toy_t0 0 [])) with
  | Ok env => decrypt Toy.prims0 env (mkWorld toy_receiver (toy_t0 + 301000) 0 []) =
                (Err EExpired, mkWorld toy_receiver (toy_t0 + 301000) 0 [])
  | Err _ => False
  end.
Proof.
  apply (encrypt_then_expired Toy.prims0 toy_laws toy_rnd [] toy_peer_pub
           (mkWorld toy_sender toy_t0 0 []) (mkWorld toy_receiver (toy_t0 + 301000) 0 []) "26");
    [discriminate | reflexivity | vm_compute; congruence | vm_compute; reflexivity].
Defined.

(** ** Key pairs, the file system and the facade *)





(** Adding a directory. *)
Lemma is_dir_add (f : fsys) (x d : string) :
  is_dir (mkFs (x :: fs_dirs f) (fs_files f) (fs_readonly f)) d = String.eqb d x || is_dir f d.
Proof. reflexivity. Qed.

Lemma mkdirs_keeps_files (f : fsys) (ds : list string) :
  fs_files (fst (mkdirs f ds)) = fs_files f /\ fs_readonly (fst (mkdirs f ds)) = fs_readonly f.
Proof.
  revert f. induction ds as [| x ds IH]; intros f; cbn [mkdirs]; [split; reflexivity |].
  destruct (is_dir f x); [apply IH |].
  destruct (is_file f x); [split; reflexivity |].
  destruct (negb (writable f (parent_dir x))); [split; reflexivity |].
  destruct (IH (mkFs (x :: fs_dirs f) (fs_files f) (fs_readonly f))) as [H1 H2].
  rewrite H1, H2. split; reflexivity.
Qed.

Lemma mkdirs_dir_mono (f : fsys) (ds : list string) (d : string) :
  is_dir f d = true -> is_dir (fst (mkdirs f ds)) d = true.
Proof.
  revert f. induction ds as [| x ds IH]; intros f Hd; cbn [mkdirs]; [exact Hd |].
  destruct (is_dir f x); [apply IH; exact Hd |].
  destruct (is_file f x); [exact Hd |].
  destruct (negb (writable f (parent_dir x))); [exact Hd |].
  apply IH. rewrite is_dir_add, Hd. apply Bool.orb_true_r.
Qed.

Lemma mkdirs_mono (f : fsys) (ds : list string) (d : string) :
  fs_exists f d = true -> fs_exists (fst (mkdirs f ds)) d = true.
Proof.
  unfold fs_exists. intros Hd. apply Bool.orb_true_iff in Hd as [Hd | Hd].
  - rewrite (mkdirs_dir_mono f ds d Hd). reflexivity.
  - unfold is_file in *. rewrite (proj1 (mkdirs_keeps_files f ds)), Hd.
    apply Bool.orb_true_r.
Qed.

Lemma mkdirs_only (f : fsys) (ds : list string) (d : string) :
  fs_exists (fst (mkdirs f ds)) d = true -> fs_exists f d = true \/ In d ds.
Proof.
  revert f. induction ds as [| x ds IH]; intros f Hd; cbn [mkdirs fst] in Hd; [left; exact Hd |].
  destruct (is_dir f x).
  { destruct (IH f Hd) as [Hf | Hi]; [left; exact Hf | right; right; exact Hi]. }
  destruct (is_file f x); [left; exact Hd |].
  destruct (negb (writable f (parent_dir x))); [left; exact Hd |].
  destruct (IH _ Hd) as [Hf | Hi]; [| right; right; exact Hi].
  unfold fs_exists in Hf. rewrite is_dir_add in Hf.
  destruct (String.eqb d x) eqn:E; [right; left; symmetry; apply String.eqb_eq; exact E |].
  left. exact Hf.
Qed.

Lemma mkdirs_ok (f : fsys) (ds : list string) (d : string) :
  snd (mkdirs f ds) = None -> In d ds -> is_dir (fst (mkdirs f ds)) d = true.
Proof.
  revert f. induction ds as [| x ds IH]; intros f Hok Hin; [destruct Hin |].
  cbn [mkdirs] in *.
  destruct (is_dir f x) eqn:Ex.
  { destruct Hin as [<- | Hin]; [apply mkdirs_dir_mono; exact Ex | apply IH; assumption]. }
  destruct (is_file f x); [discriminate |].
  destruct (negb (writable f (parent_dir x))); [discriminate |].
  destruct Hin as [<- | Hin]; [| apply IH; assumption].
  apply mkdirs_dir_mono. rewrite is_dir_add, String.eqb_refl. reflexivity.
Qed.


Lemma path_error_app (f : fsys) (l1 l2 : list string) :
  (forall a, In a l1 -> is_dir f a = true) -> path_error f (l1 ++ l2) = path_error f l2.
Proof.
  induction l1 as [| a l1 IH]; intros Hd; [reflexivity |].
  cbn [app path_error]. rewrite (Hd a (or_introl eq_refl)).
  apply IH. intros x Hx. apply Hd. right. exact Hx.
Qed.



(** [ensureResultsDir] run on a state. *)
Lemma ensureResultsDir_run (dir : string) (f : fsys) (w : world) :
  ensureResultsDir dir (f, w) =
    if fs_exists f dir then (DOk dir, (f, w))
    else (match snd (fs_mkdir f dir) with None => DOk dir | Some code => DErr (EFs code) end,
          (fst (fs_mkdir f dir), w)).
Proof.
  unfold ensureResultsDir, bindD, get_fs, fs_call, retD. cbn [fst snd].
  destruct (fs_exists f dir); cbn [negb]; [reflexivity |].
  destruct (snd (fs_mkdir f dir)); reflexivity.
Qed.

(** The outcome of [ensureResultsDir]: the world untouched, the files and
    permissions untouched, nothing removed, and what is new is [dir] or one
    of its ancestors; on success [dir] exists, on failure the error is the
    code of [mkdirSync]. *)
Lemma ensureResultsDir_facts (dir : string) (f : fsys) (w : world) :
  match ensureResultsDir dir (f, w) with
  | (r, (f', w')) =>
      match r with
      | DOk x => x = dir /\ fs_exists f' dir = true
      | DErr e => exists code, e = EFs code
      end /\
      w' = w /\ fs_files f' = fs_files f /\ fs_readonly f' = fs_readonly f /\
      (forall d, fs_exists f d = true -> fs_exists f' d = true) /\
      (forall d, fs_exists f' d = true -> fs_exists f d = true \/ In d (ancestors dir ++ [dir]))
  end.
Proof.
  rewrite ensureResultsDir_run. destruct (fs_exists f dir) eqn:Ex.
  { split; [split; [reflexivity | exact Ex] |].
    split; [reflexivity |]. split; [reflexivity |]. split; [reflexivity |].
    split; [intros d Hd; exact Hd | intros d Hd; left; exact Hd]. }
  unfold fs_mkdir. destruct (mkdirs_keeps_files f (ancestors dir ++ [dir])) as [Hf Hr].
  pose proof (mkdirs_ok f (ancestors dir ++ [dir]) dir) as Hok.
  pose proof (mkdirs_mono f (ancestors dir ++ [dir])) as Hmono.
  pose proof (mkdirs_only f (ancestors dir ++ [dir])) as Honly.
  destruct (mkdirs f (ancestors dir ++ [dir])) as [f' [code |]]; cbn [fst snd] in *.
  - split; [eexists; reflexivity |]. repeat split; assumption.
  - split.
    + split; [reflexivity |]. unfold fs_exists.
      rewrite Hok; [reflexivity | reflexivity | apply in_or_app; right; left; reflexivity].
    + repeat split; assumption.
Qed.

(** X16: [ensureResultsDir(dir)] either returns [dir], which then exists, or
    throws the error code of [mkdirSync]; either way it removes nothing,
    touches no file, and adds only [dir] and its missing ancestors (the
    [recursive] option); after a success, running it again changes
    nothing. *)
Theorem ensureResultsDir_idempotent (dir : string) (f : fsys) (w : world) :
  match ensureResultsDir dir (f, w) with
  | (r, (f', w')) =>
      match r with
      | DOk x => x = dir /\ fs_exists f' dir = true /\ ensureResultsDir dir (f', w') = (DOk dir, (f', w'))
      | DErr e => exists code, e = EFs code
      end /\
      w' = w /\ fs_files f' = fs_files f /\
      (forall d, fs_exists f d = true -> fs_exists f' d = true) /\
      (forall d, fs_exists f' d = true -> fs_exists f d = true \/ In d (ancestors dir ++ [dir]))
  end.
Proof.
  pose proof (ensureResultsDir_facts dir f w) as Hf.
  destruct (ensureResultsDir dir (f, w)) as [r [f' w']].
  destruct Hf as [Hr [Hw [Hfs [_ [Hm Ho]]]]].
  split; [| split; [exact Hw | split; [exact Hfs | split; assumption]]].
  destruct r as [x | e]; [| exact Hr].
  destruct Hr as [Hx He]. split; [exact Hx |]. split; [exact He |].
  rewrite ensureResultsDir_run, He. reflexivity.
Qed.

(** [saveResponse] run on a state. *)
Lemma saveResponse_run (H : host) (data : json) (dir prefix : string)
    (f : fsys) (w : world) :
  let p := path_join H dir (prefix ++ "-" ++ dash_colons_dots (iso_string H (clock w)) ++ ".json") in
  saveResponse H data dir prefix (f, w) =
    match ensureResultsDir dir (f, w) with
    | (DOk _, (f1, w1)) =>
        (match snd (fs_write f1 p (json_pretty H data)) with
         | None => DOk p
         | Some code => DErr (EFs code)
         end, (fst (fs_write f1 p (json_pretty H data)), w1))
    | (DErr e, s1) => (DErr e, s1)
    end.
Proof.
  intros p. unfold saveResponse, bindD at 1, liftM, now_ms. cbn [fst snd].
  fold p. unfold bindD at 1.
  destruct (ensureResultsDir dir (f, w)) as [[x | e] [f1 w1]]; [| reflexivity].
  unfold bindD, get_fs, fs_call, retD. cbn [fst snd].
  destruct (snd (fs_write f1 p (json_pretty H data))); reflexivity.
Qed.

Lemma saveResponse_world (H : host) (data : json) (dir prefix : string)
    (f : fsys) (w : world) :
  snd (snd (saveResponse H data dir prefix (f, w))) = w.
Proof.
  rewrite saveResponse_run. pose proof (ensureResultsDir_facts dir f w) as Hf.
  destruct (ensureResultsDir dir (f, w)) as [[x | e] [f1 w1]];
    destruct Hf as [_ [Hw _]]; cbn [snd]; exact Hw.
Qed.



(** X28: when the results directory is a regular file (its ancestors being
    directories), [saveResponse] finds it present, so [mkdirSync] is not
    called, and then [writeFileSync] of the file inside it throws
    [ENOTDIR]; nothing is changed. *)
Theorem saveResponse_dir_is_file (H : host) (data : json) (dir prefix : string)
    (f : fsys) (w : world) :
  let p := path_join H dir (prefix ++ "-" ++ dash_colons_dots (iso_string H (clock w)) ++ ".json") in
  (forall a, In a (ancestors dir) -> is_dir f a = true) ->
  is_file f dir = true -> is_dir f dir = false ->
  ancestors p = (ancestors dir ++ [dir])%list ->
  saveResponse H data dir prefix (f, w) = (DErr (EFs "ENOTDIR"), (f, w)).
Proof.
  intros p Ha Hfile Hdir Hp. rewrite saveResponse_run. fold p.
  rewrite ensureResultsDir_run. unfold fs_exists at 1. rewrite Hfile, Bool.orb_true_r.
  unfold fs_write. rewrite Hp, (path_error_app f _ _ Ha). cbn [path_error].
  rewrite Hdir, Hfile. reflexivity.
Qed.


(** X14: [new DataHunterClient] with a curve that [crypto.createECDH]
    rejects throws that error from [generateKeyPair()], after the results
    directory has been made: the directory is there and no key was drawn. *)
Theorem new_DataHunterClient_bad_curve (P : prims) (H : host) (rnd : nat -> string)
    (b : string) (rd : option string) (sv : option bool) (c : string) (f : fsys) (w : world) :
  curve_ok P c = false ->
  let dir := match rd with Some r => r | None => DEFAULT_RESULTS_DIR H end in
  let r := new_DataHunterClient P H rnd b rd sv (Some c) (f, w) in
  match ensureResultsDir dir (f, w) with
  | (DOk _, (f1, _)) =>
      fst r = DErr (DHE ECrypto) /\ fst (snd r) = f1 /\ fs_exists f1 dir = true /\
      seed (snd (snd r)) = seed w /\ trace (snd (snd r)) = trace w
  | (DErr e, s1) => r = (DErr e, s1)
  end.
Proof.
  intros Hc dir r. subst r.
  pose proof (ensureResultsDir_facts dir f w) as Hf.
  unfold new_DataHunterClient, bindD. cbv zeta. cbn [resultsDir]. fold dir.
  destruct (ensureResultsDir dir (f, w)) as [[x | e] [f1 w1]]; [| reflexivity].
  destruct Hf as [[_ Hex] [-> _]].
  unfold bindD, liftM. cbn [fst snd].
  unfold new_ECCClient, generateKeyPair, bind, get_client, put_client, throw.
  cbn [fst snd cl curve seed trace]. rewrite Hc. cbn [negb].
  repeat split; first [reflexivity | assumption].
Qed.

(** X19: the time stamp in a file name has every [:] and [.] of the ISO
    string turned into [-] and nothing else changed: same length, and no
    [:] or [.] left. *)
Theorem dash_colons_dots_clean (s : string) :
  String.length (dash_colons_dots s) = String.length s /\
  (forall n c, String.get n (dash_colons_dots s) = Some c -> c <> ":"%char /\ c <> "."%char) /\
  (forall n c, String.get n s = Some c -> c <> ":"%char -> c <> "."%char ->
               String.get n (dash_colons_dots s) = Some c).
Proof.
  induction s as [| a s [IHl [IHc IHk]]]; cbn [dash_colons_dots String.length].
  - split; [reflexivity |]. split; intros n c Hc; destruct n; discriminate.
  - split; [rewrite IHl; reflexivity |]. split.
    + intros [| n] c Hc; cbn [String.get] in Hc; [| exact (IHc n c Hc)].
      injection Hc as <-.
      destruct (Ascii.eqb a ":"%char) eqn:E1; cbn [orb];
        [split; discriminate |].
      destruct (Ascii.eqb a "."%char) eqn:E2; [split; discriminate |].
      apply Ascii.eqb_neq in E1, E2. split; assumption.
    + intros [| n] c Hc H1 H2; cbn [String.get] in *; [| exact (IHk n c Hc H1 H2)].
      injection Hc as <-.
      apply Ascii.eqb_neq in H1, H2. rewrite H1, H2. reflexivity.
Qed.

Lemma ends_with_slash_app (b : string) : ends_with_slash (b ++ "/") = true.
Proof.
  induction b as [| c b IH]; [reflexivity |].
  cbn [append]. destruct b; [reflexivity | exact IH].
Qed.

Lemma drop_last_app (b : string) : drop_last (b ++ "/") = b.
Proof.
  induction b as [| c b IH]; [reflexivity |].
  cbn [append]. destruct b as [| c' b]; [reflexivity |].
  change (drop_last (String c (String c' b ++ "/")))
    with (String c (drop_last (String c' b ++ "/"))).
  rewrite IH. reflexivity.
Qed.

(** X20: the constructor removes exactly one trailing [/] from the base URL
    ([b/] and [b//] become [b] and [b/]) and leaves a base URL without one
    as it is. *)
Theorem trim_base_one_slash (b : string) :
  trim_base (b ++ "/") = b /\
  (ends_with_slash b = false -> trim_base b = b).
Proof.
  split.
  - unfold trim_base. rewrite ends_with_slash_app. apply drop_last_app.
  - intros Hb. unfold trim_base. rewrite Hb. reflexivity.
Qed.

(** [request] with no server key (null) fetches it first, through
    [keys.getPublicKey]. *)
Lemma dh_request_no_key (P : prims) (H : host) (rnd : nat -> string)
    (net : request -> response * Z) (d : dh_client) (e : string)
    (data : list (string * json)) (f : fsys) (w : world) :
  hasServerPublicKey (cl w) = false ->
  dh_request P H rnd net d e data (f, w) =
    match getServerPublicKey P net (baseUrl d) w with
    | (Ok _, w1) => dh_request P H rnd net d e data (f, w1)
    | (Err er, w1) => (DErr (DHE er), (f, w1))
    end.
Proof.
  intros Hk.
  destruct (getServerPublicKey_world P net (baseUrl d) w) as [c [Hw Hc]].
  unfold dh_request at 1, bindD, liftM, get_client. cbn [fst snd].
  rewrite Hk. cbn [negb]. unfold keys_getPublicKey, catch. cbn [fst snd].
  destruct (getServerPublicKey P net (baseUrl d) w) as [[k | er] w1] eqn:E;
    cbn [fst snd throw]; [| reflexivity].
  cbn [fst snd] in Hw, Hc. destruct Hc as [-> _]. subst w1.
  unfold dh_request, bindD, liftM, get_client. cbn [fst snd cl].
  reflexivity.
Qed.

(** With a server key at hand, the state after [request] is the world
    after [makeRequest]; its error is the result, with the files as they
    were. *)
Lemma dh_request_cached (P : prims) (H : host) (rnd : nat -> string)
    (net : request -> response * Z) (d : dh_client) (e : string)
    (data : list (string * json)) (f : fsys) (w : world) :
  hasServerPublicKey (cl w) = true ->
  snd (snd (dh_request P H rnd net d e data (f, w))) =
    snd (makeRequest P rnd net (getFullUrl d e) data w) /\
  (forall er, fst (makeRequest P rnd net (getFullUrl d e) data w) = Err er ->
     fst (dh_request P H rnd net d e data (f, w)) = DErr (DHE er) /\
     fst (snd (dh_request P H rnd net d e data (f, w))) = f).
Proof.
  intros Hk.
  unfold dh_request, bindD, liftM, get_client, retD. cbn [fst snd].
  rewrite Hk. cbn [negb retD]. cbv zeta. cbn [fst snd].
  destruct (makeRequest P rnd net (getFullUrl d e) data w) as [[r | er] w2];
    cbn [fst snd]; [| split; [reflexivity | intros er' Her; injection Her as <-; split; reflexivity]].
  split; [| discriminate].
  destruct (responseData r) as [v |]; [| reflexivity].
  destruct (truthy v && saveResponses d); [| reflexivity].
  pose proof (saveResponse_world H v (resultsDir d) "response" f w2) as Hs.
  destruct (saveResponse H v (resultsDir d) "response" (f, w2)) as [[p | er] [f' w']];
    exact Hs.
Qed.

(** X22: while the client holds no server key, [request] first POSTs the
    client's public key to [baseUrl/api/v4/keys/public].  If that fails its
    error is the result: no GET is sent and no file written, and the client
    is as it was except that a truthy [serverPublicKey] that is not a string
    (the TypeError case) stays cached.  If it succeeds the request goes on
    exactly as with that key cached. *)
Theorem dh_request_handshake (P : prims) (H : host) (rnd : nat -> string)
    (net : request -> response * Z) (d : dh_client) (e : string)
    (data : list (string * json)) (f : fsys) (w : world) :
  hasServerPublicKey (cl w) = false ->
  let req := handshake_request P (baseUrl d) (cl w) in
  let w1 := snd (getServerPublicKey P net (baseUrl d) w) in
  clock w1 = (clock w + snd (net req))%Z /\ seed w1 = seed w /\
  trace w1 = (trace w ++ [Ev_fetch req])%list /\
  match fst (getServerPublicKey P net (baseUrl d) w) with
  | Ok k =>
      cl w1 = set_serverPublicKey (cl w) (JStr k) /\
      dh_request P H rnd net d e data (f, w) = dh_request P H rnd net d e data (f, w1)
  | Err er =>
      dh_request P H rnd net d e data (f, w) = (DErr (DHE er), (f, w1)) /\
      (cl w1 = cl w \/
       (er = ETypeError /\ exists v, truthy v = true /\ (forall k, v <> JStr k) /\
                                     cl w1 = set_serverPublicKey (cl w) v))
  end.
Proof.
  intros Hk req w1.
  destruct (getServerPublicKey_world P net (baseUrl d) w) as [c [Hw Hc]].
  fold req in Hw. fold w1 in Hw. rewrite Hw. cbn [cl clock seed trace].
  split; [reflexivity |]. split; [reflexivity |]. split; [reflexivity |].
  rewrite (dh_request_no_key P H rnd net d e data f w Hk).
  fold w1 in Hc. unfold w1 in *.
  destruct (getServerPublicKey P net (baseUrl d) w) as [[k | er] w2];
    cbn [fst snd] in *; subst w2.
  - destruct Hc as [-> _]. split; reflexivity.
  - split; [reflexivity |]. exact Hc.
Qed.

(** X23: constructing a [DataHunterClient] makes the results directory
    first and then the crypto client.  If both succeed, the client has the
    base URL without its trailing [/], the results directory given (or
    [./results]) existing, no file touched, [saveResponses] off unless
    asked for, and its first [request] starts with the key handshake.  If
    not, the error is the [mkdirSync] code or the [createECDH] error, and no
    file was touched. *)
Theorem new_DataHunterClient_first_request (P : prims) (H : host) (rnd : nat -> string)
    (net : request -> response * Z) (b : string) (rd : option string) (sv : option bool)
    (cv : option string) (f : fsys) (w : world) (e : string) (data : list (string * json)) :
  match new_DataHunterClient P H rnd b rd sv cv (f, w) with
  | (DOk d, (f1, w1)) =>
      baseUrl d = trim_base b /\
      resultsDir d = match rd with Some r => r | None => DEFAULT_RESULTS_DIR H end /\
      saveResponses d = match sv with Some v => v | None => false end /\
      fs_exists f1 (resultsDir d) = true /\ fs_files f1 = fs_files f /\
      dh_request P H rnd net d e data (f1, w1) =
        match getServerPublicKey P net (baseUrl d) w1 with
        | (Ok _, w2) => dh_request P H rnd net d e data (f1, w2)
        | (Err er, w2) => (DErr (DHE er), (f1, w2))
        end
  | (DErr er, (f1, _)) =>
      (er = DHE ECrypto \/ exists code, er = EFs code) /\ fs_files f1 = fs_files f
  end.
Proof.
  set (dir := match rd with Some r => r | None => DEFAULT_RESULTS_DIR H end).
  pose proof (ensureResultsDir_facts dir f w) as Hf.
  unfold new_DataHunterClient, bindD. cbv zeta. cbn [resultsDir]. fold dir.
  destruct (ensureResultsDir dir (f, w)) as [[x | er] [f1 w1]];
    destruct Hf as [Hr [-> [Hfs _]]]; [| split; [right; exact Hr | exact Hfs]].
  destruct Hr as [_ Hex].
  unfold liftM. cbn [fst snd].
  unfold new_ECCClient, generateKeyPair, bind, get_client, fresh, put_client, throw.
  cbn [fst snd cl seed clock trace curve retD].
  destruct (curve_ok P _); cbn [negb]; [| split; [left; reflexivity | exact Hfs]].
  cbn [fst snd cl seed clock trace retD baseUrl resultsDir saveResponses].
  split; [reflexivity |]. split; [reflexivity |]. split; [reflexivity |].
  split; [exact Hex |]. split; [exact Hfs |].
  apply dh_request_no_key. reflexivity.
Qed.

(** X24: after [keys.resetKeys()] the next [request] runs the key handshake
    again, with the new public key.  The curve is one [createECDH] accepts,
    as for every constructed client: it is [readonly] and the constructor
    already made a key pair on it. *)
Theorem resetKeys_then_request (P : prims) (H : host) (rnd : nat -> string)
    (net : request -> response * Z) (d : dh_client) (e : string)
    (data : list (string * json)) (f : fsys) (w : world) :
  curve_ok P (curve (cl w)) = true ->
  let w1 := snd (resetKeys P rnd w) in
  handshake_request P (baseUrl d) (cl w1) =
    mkRequest "POST" (baseUrl d ++ "/api/v4/keys/public")
      (Some (json_stringify P (JObj [("clientPublicKey",
                                      JStr (ecdh_pub P (curve (cl w)) (rnd (seed w))))]))) /\
  dh_request P H rnd net d e data (f, w1) =
    match getServerPublicKey P net (baseUrl d) w1 with
    | (Ok _, w2) => dh_request P H rnd net d e data (f, w2)
    | (Err er, w2) => (DErr (DHE er), (f, w2))
    end.
Proof.
  intros Hc w1.
  assert (Hw1 : w1 = mkWorld (mkClient (curve (cl w)) (rnd (seed w))
                                       (ecdh_pub P (curve (cl w)) (rnd (seed w))) None)
                             (clock w) (S (seed w)) (trace w ++ [Ev_keygen])%list).
  { unfold w1, resetKeys, generateKeyPair, getPublicKey, bind, get_client, put_client,
      fresh, ret.
    cbn [fst snd cl curve seed clock trace]. rewrite Hc. reflexivity. }
  rewrite Hw1. split; [reflexivity |].
  apply dh_request_no_key. reflexivity.
Qed.


(** X26: [executeById] with an empty id and [executeByName] with an empty
    name throw their argument error before anything else happens. *)
Theorem query_empty_argument (P : prims) (H : host) (rnd : nat -> string)
    (net : request -> response * Z) (d : dh_client) (ps : json) (apiKey : option string)
    (s : fsys * world) :
  executeById P H rnd net d "" ps apiKey s = (DErr EQueryId, s) /\
  executeByName P H rnd net d "" ps apiKey s = (DErr EQueryName, s).
Proof. split; reflexivity. Qed.

(** X27: with a server key cached, [executeById] makes exactly one HTTP call:
    a GET to [baseUrl/api/v4/query/<id>?ENC=...] carrying the encrypted
    [parameters] and [apikey]; whatever the response, saving it makes no
    other call. *)
Theorem executeById_single_get (P : prims) (H : host) (rnd : nat -> string)
    (net : request -> response * Z) (d : dh_client) (queryId : string) (ps : json)
    (apiKey : option string) (f : fsys) (w : world) (k base env : string) (w1 : world) :
  queryId <> "" ->
  serverPublicKey (cl w) = Some (JStr k) -> k <> "" ->
  url_origin P (baseUrl d ++ "/api/v4/query/" ++ queryId) = Some base ->
  encrypt P rnd (query_fields ps apiKey) k w = (Ok env, w1) ->
  fetches (trace (snd (snd (executeById P H rnd net d queryId ps apiKey (f, w))))) =
    (fetches (trace w) ++
     [Ev_fetch (mkRequest "GET" (baseUrl d ++ "/api/v4/query/" ++ queryId ++ "?ENC=" ++
                                 encode_uri_component P env) None)])%list.
Proof.
  intros Hq Hk Hk0 Hu He.
  assert (Hw1 : fetches (trace w1) = fetches (trace w)).
  { pose proof (encrypt_quiet P rnd (query_fields ps apiKey) k w) as Hqt.
    rewrite He in Hqt. exact Hqt. }
  unfold executeById. apply String.eqb_neq in Hq. rewrite Hq.
  destruct (dh_request_cached P H rnd net d ("/api/v4/query/" ++ queryId)
              (query_fields ps apiKey) f w) as [Hw _];
    [unfold hasServerPublicKey; rewrite Hk; reflexivity |].
  rewrite Hw.
  change (getFullUrl d ("/api/v4/query/" ++ queryId))
    with (baseUrl d ++ "/api/v4/query/" ++ queryId).
  destruct (net (mkRequest "GET" ((baseUrl d ++ "/api/v4/query/" ++ queryId) ++ "?ENC=" ++
                                  encode_uri_component P env) None)) as [resp dt] eqn:Hn.
  rewrite (makeRequest_get P rnd net _ _ w base k env w1 resp dt Hu Hk Hk0 He Hn).
  cbv zeta. rewrite str_app_assoc.
  destruct (resp_ok resp).
  - rewrite handle_body_quiet. cbn [trace]. rewrite fetches_app, Hw1. reflexivity.
  - cbn [snd trace]. rewrite fetches_app, Hw1. reflexivity.
Qed.

Lemma dh_request_handshake_witness :
  dh_request Toy.prims0 toy_host toy_rnd toy_fail_net toy_dh "/api/v4/query" []
    (toy_fs, mkWorld toy_sender toy_t0 0 []) =
    (DErr (DHE (EHttp 503 "busy")),
     (toy_fs, snd (getServerPublicKey Toy.prims0 toy_fail_net (baseUrl toy_dh)
                     (mkWorld toy_sender toy_t0 0 [])))).
Proof.
  destruct (dh_request_handshake Toy.prims0 toy_host toy_rnd toy_fail_net toy_dh
              "/api/v4/query" [] toy_fs (mkWorld toy_sender toy_t0 0 []) eq_refl)
    as [_ [_ [_ Hm]]].
  revert Hm.
  change (fst (getServerPublicKey Toy.prims0 toy_fail_net (baseUrl toy_dh)
                 (mkWorld toy_sender toy_t0 0 []))) with (@Err string (EHttp 503 "busy")).
  intros [Hx _]. exact Hx.
Defined.

Lemma executeById_single_get_witness :
  fetches (trace (snd (snd (executeById Toy.prims0 toy_host toy_rnd toy_data_net toy_dh "q1"
                              (JArr []) None (toy_fs, mkWorld toy_cached toy_t0 0 []))))) =
    [Ev_fetch (mkRequest "GET" ("https://api.example/api/v4/query/q1?ENC=" ++ toy_env_q) None)].
Proof.
  rewrite (executeById_single_get Toy.prims0 toy_host toy_rnd toy_data_net toy_dh "q1" (JArr [])
             None toy_fs (mkWorld toy_cached toy_t0 0 []) toy_peer_pub
             "https://api.example/api/v4/query/q1" toy_env_q
             (snd (encrypt Toy.prims0 toy_rnd (query_fields (JArr []) None) toy_peer_pub
                     (mkWorld toy_cached toy_t0 0 []))));
    [vm_compute; reflexivity | discriminate | reflexivity | discriminate | reflexivity
    | vm_compute; reflexivity].
Defined.

Lemma new_DataHunterClient_bad_curve_witness :
  curve_ok Toy.prims0 "nope" = false /\
  fst (new_DataHunterClient Toy.prims0 toy_host toy_rnd "https://api.example"
         (Some "/app/results") None (Some "nope") (toy_fs, mkWorld toy_sender toy_t0 0 []))
    = DErr (DHE ECrypto).
Proof.
  split; [reflexivity |].
  pose proof (new_DataHunterClient_bad_curve Toy.prims0 toy_host toy_rnd "https://api.example"
                (Some "/app/results") None "nope" toy_fs (mkWorld toy_sender toy_t0 0 [])
                eq_refl) as Hx.
  cbv beta iota zeta in Hx.
  destruct (ensureResultsDir "/app/results" (toy_fs, mkWorld toy_sender toy_t0 0 []))
    as [[x | e] [f1 w1]] eqn:E.
  - exact (proj1 Hx).
  - vm_compute in E. discriminate E.
Defined.

Lemma saveResponse_dir_is_file_witness :
  saveResponse toy_host (JArr []) "/app/out.txt" "q"
    (mkFs ["/app"] [("/app/out.txt", "x")] [], mkWorld toy_sender toy_t0 0 [])
  = (DErr (EFs "ENOTDIR"),
     (mkFs ["/app"] [("/app/out.txt", "x")] [], mkWorld toy_sender toy_t0 0 [])).
Proof.
  refine (saveResponse_dir_is_file toy_host (JArr []) "/app/out.txt" "q"
            (mkFs ["/app"] [("/app/out.txt", "x")] []) (mkWorld toy_sender toy_t0 0 [])
            _ _ _ _).
  - intros a Ha. vm_compute in Ha. destruct Ha as [<- | []]. reflexivity.
  - reflexivity.
  - reflexivity.
  - vm_compute. reflexivity.
Defined.

Lemma resetKeys_then_request_witness :
  curve_ok Toy.prims0 (curve (cl (mkWorld toy_sender toy_t0 0 []))) = true /\
  handshake_request Toy.prims0 "https://api.example"
    (cl (snd (resetKeys Toy.prims0 toy_rnd (mkWorld toy_sender toy_t0 0 [])))) =
    mkRequest "POST" ("https://api.example" ++ "/api/v4/keys/public")
      (Some (json_stringify Toy.prims0
               (JObj [("clientPublicKey", JStr (ecdh_pub Toy.prims0 "prime256v1" (toy_rnd 0)))]))).
Proof.
  split; [reflexivity |].
  exact (proj1 (resetKeys_then_request Toy.prims0 toy_host toy_rnd toy_key_net toy_dh
                  "/api/v4/query" [] toy_fs (mkWorld toy_sender toy_t0 0 []) eq_refl)).
Defined.
